(** * KUHP Analyzer: a shallow embedding of [backend/kuhp_agent.py]

    The analyzer uploads two PDF documents to a remote file store, waits
    until both are usable, and answers queries by sending both
    documents and a prompt to a remote generation service, retrying on
    failure.  Everything the class does is a sequence of calls to
    external services, so the embedding is a state-and-exception monad
    over an explicit record of the analyzer's fields, the chronological
    trace of external calls, and the lines printed.

    - Python [str] values are modelled as [string] (the UTF-8 bytes of
      the text).  UTF-8 is self-synchronising, so the substring test
      [kw in s] on code points and on bytes agree.
    - Python [int] values are modelled as [Z].
    - Exceptions are values of type [exn]; every exception that occurs
      is an instance of [Exception] (the only class the source raises
      and the class its handlers catch).
    - The external world (Python's [str.lower], the file system, the
      remote file store and the remote generation service) is a record
      [Env] of functions.  A remote answer may depend on the whole
      history of calls and sleeps made so far. *)

From Stdlib Require Import String Ascii List ZArith Bool Lia.
From Equations Require Import Equations.
Import ListNotations.

Open Scope string_scope.
Open Scope Z_scope.

(* ================================================================= *)
(** ** Strings *)

(** [needle in hay] on Python strings. *)
Fixpoint contains (needle hay : string) : bool :=
  prefix needle hay ||
  match hay with
  | EmptyString => false
  | String _ rest => contains needle rest
  end.

(** The mathematical reading of "occurs as a substring". *)
Definition is_substring (needle hay : string) : Prop :=
  exists before after, hay = before ++ needle ++ after.

(** [str.lower] restricted to ASCII text: the letters [A]..[Z] are
    mapped to [a]..[z], every other byte is kept. *)
Definition ascii_lower_char (c : ascii) : ascii :=
  let n := N_of_ascii c in
  if (N.leb 65 n && N.leb n 90)%bool then ascii_of_N (n + 32) else c.

Fixpoint ascii_lower (s : string) : string :=
  match s with
  | EmptyString => EmptyString
  | String c rest => String (ascii_lower_char c) (ascii_lower rest)
  end.

(** A double quote, for the literals below. *)
Definition dq : string := String (ascii_of_nat 34) EmptyString.

(* ================================================================= *)
(** ** Data model *)

(** A Python exception: its class name and its message ([str(e)]). *)
Record exn : Type := Exn { exn_class : string; exn_msg : string }.

(** [Exception(msg)], the only exception the source constructs. *)
Definition Exception (msg : string) : exn := Exn "Exception" msg.

(** [AttributeError] raised by [None.name]. *)
Definition AttributeError_name : exn :=
  Exn "AttributeError" "'NoneType' object has no attribute 'name'".

(** [KUHPConfig].  The [temperature] field (a float only handed to the
    model constructor) is left out. *)
Record KUHPConfig : Type := {
  model_name : string;
  old_kuhp_path : string;
  new_kuhp_path : string
}.

Definition default_config : KUHPConfig := {|
  model_name := "gemini-2.0-flash";
  old_kuhp_path := "documents/kuhp_old.pdf";
  new_kuhp_path := "documents/kuhp_new.pdf"
|}.

(** The handle returned by [genai.upload_file]. *)
Record File : Type := { name : string; display_name : string }.

(** What [genai.get_file] returns, as far as the source reads it:
    [info.state.name]. *)
Record FileInfo : Type := { state_name : string }.

(** What [model.generate_content] returns, as far as the source reads
    it: [response.text]. *)
Record GenerateContentResponse : Type := { text : string }.

(** One element of the [content] list sent to the generation service:
    a document attribute of the analyzer (possibly [None]) or a text. *)
Inductive Part : Type :=
| PFile (f : option File)
| PText (s : string).

(** External calls, in the order they are made. *)
Inductive Event : Type :=
| EvUpload (path display : string)
| EvGetFile (file_name : string)
| EvGenerate (content : list Part)
| EvSleep (seconds : Z).

(** One constructor per [print] call of the modelled methods, carrying
    the values the line is formatted from. *)
Inductive LogLine : Type :=
| LogUploadingDocuments
| LogUploading (path : string)
| LogUploaded (label : string) (f : File)
| LogFileNotFound (path : string)
| LogLoaded
| LogLoadFailed (e : exn)
| LogWaiting
| LogBothActive
| LogStillProcessing (elapsed : Z)
| LogMayNotBeProcessed
| LogStartingAnalysis (query : string)
| LogAnalysisCompleted
| LogAnalysisFailed (e : exn)
| LogGenerating (attempt max_retries : Z)
| LogGenerationFailed (attempt : Z) (e : exn)
| LogRetrying (retry_delay : Z)
| LogOldState (state : string)
| LogNewState (state : string)
| LogVerificationFailed (e : exn).

(** The fields of a [KUHPAnalyzer] object ([self.model] is set by the
    constructor and never changes; calls on it go to [Env]). *)
Record KUHPAnalyzer : Type := {
  config : KUHPConfig;
  old_kuhp_file : option File;
  new_kuhp_file : option File;
  is_initialized : bool
}.

(** The object right after [__init__]. *)
Definition new_analyzer : KUHPAnalyzer := {|
  config := default_config;
  old_kuhp_file := None;
  new_kuhp_file := None;
  is_initialized := false
|}.

(** The dictionary returned by [analyze_differences].  [response] is
    [None] only if the generation loop ends without returning. *)
Record AnalysisResult : Type := {
  response : option string;
  is_relevant : bool;
  files_used : Z
}.

(** The state threaded through the methods. *)
Record St : Type := {
  self : KUHPAnalyzer;
  trace : list Event;
  stdout : list LogLine
}.

(** The world outside the analyzer. *)
Record Env : Type := {
  str_lower : string -> string;
  path_exists : string -> bool;
  upload_file : list Event -> string -> string -> exn + File;
  get_file : list Event -> string -> exn + FileInfo;
  generate_content : list Event -> list Part -> exn + GenerateContentResponse
}.

(* ================================================================= *)
(** ** The monad: state and exceptions *)

Inductive Outcome (A : Type) : Type :=
| Return (a : A)
| Raise (e : exn).
Arguments Return {A} a.
Arguments Raise {A} e.

Definition Py (A : Type) : Type := St -> Outcome A * St.

Definition ret {A} (a : A) : Py A := fun s => (Return a, s).

Definition raise {A} (e : exn) : Py A := fun s => (Raise e, s).

Definition bind {A B} (m : Py A) (k : A -> Py B) : Py B :=
  fun s =>
    match m s with
    | (Return a, s') => k a s'
    | (Raise e, s') => (Raise e, s')
    end.

(** [try: body except Exception as e: handler e]. *)
Definition try_except {A} (body : Py A) (handler : exn -> Py A) : Py A :=
  fun s =>
    match body s with
    | (Return a, s') => (Return a, s')
    | (Raise e, s') => handler e s'
    end.

Declare Scope py_scope.
Delimit Scope py_scope with py.
Notation "x <- m ;; k" := (bind m (fun x => k))
  (at level 61, m at next level, right associativity) : py_scope.
Notation "m ;; k" := (bind m (fun _ => k))
  (at level 61, right associativity) : py_scope.
Open Scope py_scope.

Definition get_self : Py KUHPAnalyzer := fun s => (Return (self s), s).

Definition set_self (a : KUHPAnalyzer) : Py unit :=
  fun s => (Return tt, {| self := a; trace := trace s; stdout := stdout s |}).

Definition print (l : LogLine) : Py unit :=
  fun s => (Return tt,
            {| self := self s; trace := trace s; stdout := stdout s ++ [l] |}).

Definition emit (ev : Event) (s : St) : St :=
  {| self := self s; trace := trace s ++ [ev]; stdout := stdout s |}.

(** [time.sleep(seconds)]. *)
Definition sleep (seconds : Z) : Py unit :=
  fun s => (Return tt, emit (EvSleep seconds) s).

(** A remote call: the answer is read off the history so far, then the
    call is recorded. *)
Definition remote {A} (ev : Event) (answer : list Event -> exn + A) : Py A :=
  fun s =>
    match answer (trace s) with
    | inr a => (Return a, emit ev s)
    | inl e => (Raise e, emit ev s)
    end.

Definition genai_upload_file (E : Env) (path display : string) : Py File :=
  remote (EvUpload path display) (fun h => upload_file E h path display).

Definition genai_get_file (E : Env) (file_name : string) : Py FileInfo :=
  remote (EvGetFile file_name) (fun h => get_file E h file_name).

Definition model_generate_content (E : Env) (content : list Part)
  : Py GenerateContentResponse :=
  remote (EvGenerate content) (fun h => generate_content E h content).

(** [f.name] for an attribute that may hold [None]. *)
Definition attr_name (f : option File) : Py string :=
  match f with
  | Some h => ret (name h)
  | None => raise AttributeError_name
  end.

(** Truth value of a Python string. *)
Definition truthy (s : string) : bool :=
  match s with EmptyString => false | _ => true end.

(** Truth value of an attribute holding a handle or [None]. *)
Definition is_set {A} (o : option A) : bool :=
  match o with Some _ => true | None => false end.

(* ================================================================= *)
(** ** RelevanceFilter and PromptBuilder (pure methods) *)

Definition kuhp_keywords : list string := [
  "kuhp"; "hukum pidana"; "pasal"; "pidana"; "kejahatan"; "pelanggaran";
  "pencurian"; "pembunuhan"; "penganiayaan"; "penipuan"; "korupsi";
  "perkosaan"; "narkoba"; "terorisme"; "cyber"; "cyber crime";
  "sanksi"; "hukuman"; "denda"; "penjara"; "kurungan"; "tahanan";
  "tindak pidana"; "delik"; "unsur"; "ancaman"; "maksimal"; "minimal"
].

Definition _check_query_relevance (E : Env) (query : string) : bool :=
  let query_lower := str_lower E query in
  existsb (fun keyword => contains keyword query_lower) kuhp_keywords.

Definition _get_irrelevant_response (query : string) : string :=
  "Maaf, pertanyaan Anda sepertinya tidak terkait dengan KUHP (Kitab Undang-Undang Hukum Pidana) Indonesia.

Saya adalah AI assistant yang khusus dirancang untuk menganalisis perbedaan antara KUHP lama dan KUHP baru yang berlaku di Indonesia.

Silakan tanyakan hal-hal yang berkaitan dengan:
• Pasal-pasal dalam KUHP
• Jenis-jenis tindak pidana (kejahatan dan pelanggaran)
• Sanksi dan hukuman dalam KUHP
• Perbedaan ketentuan antara KUHP lama dan baru
• Perubahan sistem pemidanaan

Contoh pertanyaan yang dapat saya bantu:
- " ++ dq ++ "Apa perbedaan Pasal 351 tentang penganiayaan di KUHP lama dan baru?" ++ dq ++ "
- " ++ dq ++ "Bagaimana perubahan ketentuan tentang pencurian?" ++ dq ++ "
- " ++ dq ++ "Apa sanksi untuk tindak pidana korupsi di KUHP baru?" ++ dq ++ "
".

Definition _build_analysis_prompt (query : string) : string :=
  "Anda adalah AI assistant yang ahli dalam menganalisis KUHP (Kitab Undang-Undang Hukum Pidana) Indonesia.

Tugas Anda: Analisis perbedaan antara KUHP lama dan KUHP baru berdasarkan query pengguna dengan menggunakan kedua file PDF yang telah diberikan.

Query pengguna: " ++ query ++ "

=== INSTRUKSI ANALISIS ===
1. Baca dan analisis kedua file PDF KUHP (lama dan baru) yang telah diberikan
2. Bandingkan ketentuan yang relevan dengan query pengguna
3. Jelaskan perbedaan utama yang ditemukan
4. Berikan analisis dampak dari perubahan tersebut
5. Gunakan bahasa Indonesia yang jelas dan mudah dipahami
6. Fokus pada aspek praktis dan implementasi
7. Jika ada pasal yang dihapus, dipindahkan, atau ditambah, jelaskan dengan detail
8. Kutip nomor pasal yang spesifik dari kedua versi KUHP

=== FORMAT RESPONS ===
Berikan analisis dalam format berikut:

**Ringkasan Perbedaan:**
[Jelaskan perbedaan utama dalam 2-3 kalimat]

**Analisis Detail:**
[Analisis mendalam tentang perubahan dengan kutipan pasal spesifik]

**Dampak Praktis:**
[Jelaskan dampak implementasi perubahan]

**Kesimpulan:**
[Ringkasan dan rekomendasi]

Jawab dalam bahasa Indonesia yang profesional dan informatif.".

(* ================================================================= *)
(** ** DocumentRegistrar *)

(** [_verify_files_ready]. *)
Definition _verify_files_ready (E : Env) : Py unit :=
  try_except
    (a <- get_self ;;
     old_name <- attr_name (old_kuhp_file a) ;;
     old_file_info <- genai_get_file E old_name ;;
     new_name <- attr_name (new_kuhp_file a) ;;
     new_file_info <- genai_get_file E new_name ;;
     if negb (String.eqb (state_name old_file_info) "ACTIVE") then
       print (LogOldState (state_name old_file_info)) ;;
       raise (Exception ("KUHP Lama file is not active: "
                         ++ state_name old_file_info))
     else if negb (String.eqb (state_name new_file_info) "ACTIVE") then
       print (LogNewState (state_name new_file_info)) ;;
       raise (Exception ("KUHP Baru file is not active: "
                         ++ state_name new_file_info))
     else ret tt)
    (fun e => print (LogVerificationFailed e) ;; raise e).

(** [genai.get_file(f.name) if f else None]. *)
Definition fetch_info (E : Env) (f : option File) : Py (option FileInfo) :=
  match f with
  | Some h => info <- genai_get_file E (name h) ;; ret (Some info)
  | None => ret None
  end.

(** [info and info.state.name == "ACTIVE"]. *)
Definition info_active (info : option FileInfo) : bool :=
  match info with
  | Some i => String.eqb (state_name i) "ACTIVE"
  | None => false
  end.

(** The two look-ups and the test at the top of the polling loop's
    body. *)
Definition poll (E : Env) : Py bool :=
  a <- get_self ;;
  old_file_info <- fetch_info E (old_kuhp_file a) ;;
  new_file_info <- fetch_info E (new_kuhp_file a) ;;
  ret (info_active old_file_info && info_active new_file_info).

Definition max_wait_time : Z := 60.
Definition wait_interval : Z := 2.

(** The variant of the [while elapsed < max_wait_time] loop. *)
Definition budget_left (elapsed : Z) : nat := Z.to_nat (max_wait_time - elapsed).

Definition inspect {A} (a : A) : {b : A | a = b} := exist _ a eq_refl.

(** The [while] loop of [_wait_for_files_active], from a given value of
    [elapsed]. *)
Equations wait_loop (E : Env) (elapsed : Z) (s : St) : Outcome unit * St
  by wf (budget_left elapsed) lt :=
wait_loop E elapsed s with inspect (elapsed <? max_wait_time) := {
  | exist _ true _ =>
      (ready <- poll E ;;
       if (ready : bool) then
         print LogBothActive ;; ret tt
       else
         print (LogStillProcessing elapsed) ;;
         sleep wait_interval ;;
         (fun s' => wait_loop E (elapsed + wait_interval) s')) s
  | exist _ false _ =>
      print LogMayNotBeProcessed s }.
Next Obligation.
  match goal with H : (_ <? _) = true |- _ => apply Z.ltb_lt in H end.
  unfold budget_left, max_wait_time, wait_interval in *. lia.
Qed.

Definition _wait_for_files_active (E : Env) : Py unit :=
  print LogWaiting ;;
  wait_loop E 0.

Definition set_old_kuhp_file (f : File) : Py unit :=
  a <- get_self ;;
  set_self {| config := config a; old_kuhp_file := Some f;
              new_kuhp_file := new_kuhp_file a;
              is_initialized := is_initialized a |}.

Definition set_new_kuhp_file (f : File) : Py unit :=
  a <- get_self ;;
  set_self {| config := config a; old_kuhp_file := old_kuhp_file a;
              new_kuhp_file := Some f;
              is_initialized := is_initialized a |}.

Definition set_is_initialized (b : bool) : Py unit :=
  a <- get_self ;;
  set_self {| config := config a; old_kuhp_file := old_kuhp_file a;
              new_kuhp_file := new_kuhp_file a;
              is_initialized := b |}.

(** [load_documents]. *)
Definition load_documents (E : Env) : Py bool :=
  try_except
    (print LogUploadingDocuments ;;
     a <- get_self ;;
     let old_path := old_kuhp_path (config a) in
     if path_exists E old_path then
       print (LogUploading old_path) ;;
       f_old <- genai_upload_file E old_path "KUHP Lama" ;;
       set_old_kuhp_file f_old ;;
       print (LogUploaded "KUHP Lama" f_old) ;;
       let new_path := new_kuhp_path (config a) in
       if path_exists E new_path then
         print (LogUploading new_path) ;;
         f_new <- genai_upload_file E new_path "KUHP Baru" ;;
         set_new_kuhp_file f_new ;;
         print (LogUploaded "KUHP Baru" f_new) ;;
         _wait_for_files_active E ;;
         set_is_initialized true ;;
         print LogLoaded ;;
         ret true
       else
         print (LogFileNotFound new_path) ;;
         ret false
     else
       print (LogFileNotFound old_path) ;;
       ret false)
    (fun e => print (LogLoadFailed e) ;; ret false).

(* ================================================================= *)
(** ** AnalysisOrchestrator *)

Definition max_retries : Z := 3.
Definition initial_retry_delay : Z := 2.

(** [range(n)]. *)
Definition range (n : Z) : list Z := map Z.of_nat (seq 0 (Z.to_nat n)).

(** The body of the [try] block of one attempt. *)
Definition attempt_body (E : Env) (prompt : string) (attempt : Z) : Py string :=
  _verify_files_ready E ;;
  a <- get_self ;;
  let content := [PFile (old_kuhp_file a); PFile (new_kuhp_file a); PText prompt] in
  print (LogGenerating (attempt + 1) max_retries) ;;
  response <- model_generate_content E content ;;
  if truthy (text response) then ret (text response)
  else raise (Exception "Empty response received from Gemini").

(** The [for attempt in range(max_retries)] loop over the attempts that
    are left.  Leaving the loop without a [return] yields [None]. *)
Fixpoint generate_loop (E : Env) (prompt : string) (attempts : list Z)
    (retry_delay : Z) : Py (option string) :=
  match attempts with
  | [] => ret None
  | attempt :: rest =>
      try_except
        (txt <- attempt_body E prompt attempt ;; ret (Some txt))
        (fun e =>
           print (LogGenerationFailed (attempt + 1) e) ;;
           if attempt <? max_retries - 1 then
             print (LogRetrying retry_delay) ;;
             sleep retry_delay ;;
             generate_loop E prompt rest (retry_delay * 2)
           else raise e)
  end.

Definition _generate_response_with_files (E : Env) (prompt : string)
  : Py (option string) :=
  generate_loop E prompt (range max_retries) initial_retry_delay.

Definition analyze_differences (E : Env) (query : string) : Py AnalysisResult :=
  try_except
    (a <- get_self ;;
     if negb (is_initialized a) then
       raise (Exception "Gemini belum diinisialisasi")
     else if (negb (is_set (old_kuhp_file a)) || negb (is_set (new_kuhp_file a)))%bool then
       raise (Exception "PDF files belum di-upload")
     else
       print (LogStartingAnalysis query) ;;
       let relevant := _check_query_relevance E query in
       if negb relevant then
         ret {| response := Some (_get_irrelevant_response query);
                is_relevant := false;
                files_used := 0 |}
       else
         let analysis_prompt := _build_analysis_prompt query in
         generated <- _generate_response_with_files E analysis_prompt ;;
         let result := {| response := generated;
                          is_relevant := true;
                          files_used := 2 |} in
         print LogAnalysisCompleted ;;
         ret result)
    (fun e => print (LogAnalysisFailed e) ;; raise e).

(* ================================================================= *)
(** ** Concrete worlds used to run the model *)

Definition uploaded (display : string) : File :=
  {| name := "files/" ++ display; display_name := display |}.

(** Both files exist, uploads succeed, every look-up answers with the
    given state, generation answers with the given text. *)
Definition steady_env (state reply : string) : Env := {|
  str_lower := ascii_lower;
  path_exists := fun _ => true;
  upload_file := fun _ _ display => inr (uploaded display);
  get_file := fun _ _ => inr {| state_name := state |};
  generate_content := fun _ _ => inr {| text := reply |}
|}.

(** Like [steady_env] with ACTIVE files, but generation always raises. *)
Definition unavailable : exn := Exn "ServiceUnavailable" "503 backend overloaded".

Definition failing_env : Env := {|
  str_lower := ascii_lower;
  path_exists := fun _ => true;
  upload_file := fun _ _ display => inr (uploaded display);
  get_file := fun _ _ => inr {| state_name := "ACTIVE" |};
  generate_content := fun _ _ => inl unavailable
|}.

(** The old document exists, the new one does not. *)
Definition new_missing_env : Env := {|
  str_lower := ascii_lower;
  path_exists := fun p => String.eqb p "documents/kuhp_old.pdf";
  upload_file := fun _ _ display => inr (uploaded display);
  get_file := fun _ _ => inr {| state_name := "ACTIVE" |};
  generate_content := fun _ _ => inr {| text := "jawaban" |}
|}.

Definition fresh : St := {| self := new_analyzer; trace := []; stdout := [] |}.

(** An analyzer whose documents were loaded in a steady world. *)
Definition loaded : St := snd (load_documents (steady_env "ACTIVE" "jawaban") fresh).

(* ================================================================= *)
(** ** Vocabulary for the statements: traces, output, analyzer states *)

Open Scope list_scope.

Definition is_generate (ev : Event) : bool :=
  match ev with EvGenerate _ => true | _ => false end.

Definition is_lookup (ev : Event) : bool :=
  match ev with EvGetFile _ => true | _ => false end.

(** The delays slept, in order. *)
Fixpoint sleeps_of (evs : list Event) : list Z :=
  match evs with
  | [] => []
  | EvSleep d :: rest => d :: sleeps_of rest
  | _ :: rest => sleeps_of rest
  end.

Definition time_slept (evs : list Event) : Z := fold_right Z.add 0 (sleeps_of evs).

Definition count_generate (evs : list Event) : nat :=
  List.length (filter is_generate evs).

(** The history [h] ends with a look-up of both documents of [a], old
    then new, and the file store answered ACTIVE to both. *)
Definition observed_active (E : Env) (a : KUHPAnalyzer) (h : list Event) : Prop :=
  exists h0 o n io inn,
    old_kuhp_file a = Some o /\ new_kuhp_file a = Some n /\
    h = h0 ++ [EvGetFile (name o); EvGetFile (name n)] /\
    get_file E h0 (name o) = inr io /\ state_name io = "ACTIVE" /\
    get_file E (h0 ++ [EvGetFile (name o)]) (name n) = inr inn /\
    state_name inn = "ACTIVE".

(** Scanning [evs] after the history [hist]: every generation call comes
    right after such an observation. *)
Fixpoint guarded (E : Env) (a : KUHPAnalyzer) (hist evs : list Event) : Prop :=
  match evs with
  | [] => True
  | ev :: rest =>
      (if is_generate ev then observed_active E a hist else True) /\
      guarded E a (hist ++ [ev]) rest
  end.

(** The payload of a generation call is the old document, the new
    document and the prompt, in this order. *)
Definition payload_ok (a : KUHPAnalyzer) (prompt : string) (ev : Event) : Prop :=
  match ev with
  | EvGenerate content =>
      content = [PFile (old_kuhp_file a); PFile (new_kuhp_file a); PText prompt]
  | _ => True
  end.

(** The failed attempts reported by the generation loop, in order:
    attempt number and exception caught. *)
Fixpoint failures_of (logs : list LogLine) : list (Z * exn) :=
  match logs with
  | [] => []
  | LogGenerationFailed attempt e :: rest => (attempt, e) :: failures_of rest
  | _ :: rest => failures_of rest
  end.

(** [s'] is [s] after the external calls [evs] and the printed lines
    [logs], with the same analyzer fields. *)
Definition extends (s s' : St) (evs : list Event) (logs : list LogLine) : Prop :=
  self s' = self s /\
  trace s' = trace s ++ evs /\
  stdout s' = stdout s ++ logs.

(** Events that are look-ups or sleeps. *)
Definition is_lookup_or_sleep (ev : Event) : bool :=
  match ev with EvGetFile _ | EvSleep _ => true | _ => false end.

(** The state after the handler of a failed attempt that is retried:
    two lines printed, then the delay slept. *)
Definition backoff (attempt : Z) (e : exn) (retry_delay : Z) (s : St) : St :=
  emit (EvSleep retry_delay)
    (snd (print (LogRetrying retry_delay)
       (snd (print (LogGenerationFailed (attempt + 1) e) s)))).

(** The state after the handler of the last failed attempt. *)
Definition final_failure (attempt : Z) (e : exn) (s : St) : St :=
  snd (print (LogGenerationFailed (attempt + 1) e) s).

(** The state after one unsuccessful round of the polling loop: a line
    printed, then the interval slept. *)
Definition idle (elapsed : Z) (s : St) : St :=
  emit (EvSleep wait_interval) (snd (print (LogStillProcessing elapsed) s)).

(** [rounds E k elapsed s sk]: from [s], with [elapsed] on the loop's
    counter, [k] polls in a row found the files not ready, each followed
    by a sleep of [wait_interval]; [sk] is the state after the last of
    these sleeps. *)
Inductive rounds (E : Env) : nat -> Z -> St -> St -> Prop :=
| rounds_O : forall elapsed s, rounds E 0 elapsed s s
| rounds_S : forall k elapsed s s1 sk,
    poll E s = (Return false, s1) ->
    rounds E k (elapsed + wait_interval) (idle elapsed s1) sk ->
    rounds E (S k) elapsed s sk.

(** The states of an analyzer object over its life: constructed, then
    any sequence of [load_documents] and [analyze_differences] calls. *)
Inductive reachable (E : Env) : St -> Prop :=
| reach_new : forall tr out,
    reachable E {| self := new_analyzer; trace := tr; stdout := out |}
| reach_load : forall s,
    reachable E s -> reachable E (snd (load_documents E s))
| reach_analyze : forall s query,
    reachable E s -> reachable E (snd (analyze_differences E query s)).

(** The two exceptions raised by the checks at the top of
    [analyze_differences]. *)
Definition NotInitialized (e : exn) : Prop :=
  e = Exception "Gemini belum diinisialisasi" \/
  e = Exception "PDF files belum di-upload".

(** An initialized analyzer that lost its new handle. *)
Definition half_loaded : St := {|
  self := {| config := default_config;
             old_kuhp_file := Some (uploaded "KUHP Lama");
             new_kuhp_file := None;
             is_initialized := true |};
  trace := [];
  stdout := []
|}.

(** The reading of C9 as it is written: whenever the generation routine
    called by [analyze_differences] raises [e], the caller of
    [analyze_differences] gets some other, generic exception. *)
Definition surfaces_generic_error (E : Env) (query : string) (s : St) : Prop :=
  forall e,
    fst (_generate_response_with_files E (_build_analysis_prompt query)
           (snd (print (LogStartingAnalysis query) s))) = Raise e ->
    exists generic,
      fst (analyze_differences E query s) = Raise generic /\ generic <> e.

(* ================================================================= *)
(** ** Construction and status of the analyzer *)

(** What the constructor finds outside the object: whether the SDK was
    imported, the value of [os.getenv("GEMINI_API_KEY")], and whether
    [genai.configure] and [genai.GenerativeModel] raise. *)
Record Host : Type := {
  GENAI_AVAILABLE : bool;
  getenv_GEMINI_API_KEY : option string;
  genai_configure : string -> option exn;
  genai_GenerativeModel : string -> option exn
}.

(** Calls of the constructor into the SDK, in order. *)
Inductive InitCall : Type :=
| CallConfigure (api_key : string)
| CallGenerativeModel (model : string).

(** The two [print] calls of [_initialize_gemini]. *)
Inductive InitLog : Type :=
| LogGeminiInitialized (model : string)
| LogGeminiInitFailed (e : exn).

(** Truth value of [os.getenv(...)]: [None] and the empty string are
    false. *)
Definition key_present (k : option string) : bool :=
  match k with Some key => truthy key | None => false end.

(** The body of the [try] block of [_initialize_gemini]: the outcome
    and the SDK calls made. *)
Definition initialize_gemini_body (H : Host) (cfg : KUHPConfig)
  : Outcome unit * list InitCall :=
  if negb (GENAI_AVAILABLE H) then
    (Raise (Exception "Google AI SDK not available"), [])
  else
    match getenv_GEMINI_API_KEY H with
    | Some api_key =>
        if negb (truthy api_key) then
          (Raise (Exception "GEMINI_API_KEY not found in environment variables"), [])
        else
          match genai_configure H api_key with
          | Some e => (Raise e, [CallConfigure api_key])
          | None =>
              match genai_GenerativeModel H (model_name cfg) with
              | Some e =>
                  (Raise e, [CallConfigure api_key;
                             CallGenerativeModel (model_name cfg)])
              | None =>
                  (Return tt, [CallConfigure api_key;
                               CallGenerativeModel (model_name cfg)])
              end
          end
    | None =>
        (Raise (Exception "GEMINI_API_KEY not found in environment variables"), [])
    end.

(** [_initialize_gemini]: the body, then the success line, or the
    failure line and the same exception again. *)
Definition _initialize_gemini (H : Host) (cfg : KUHPConfig)
  : Outcome unit * list InitCall * list InitLog :=
  match initialize_gemini_body H cfg with
  | (Return _, calls) => (Return tt, calls, [LogGeminiInitialized (model_name cfg)])
  | (Raise e, calls) => (Raise e, calls, [LogGeminiInitFailed e])
  end.

(** [KUHPAnalyzer()]: the fields are set, then Gemini is initialized;
    an exception there leaves the caller without an object. *)
Definition __init__ (H : Host)
  : Outcome KUHPAnalyzer * list InitCall * list InitLog :=
  let this := {| config := default_config;
                 old_kuhp_file := None;
                 new_kuhp_file := None;
                 is_initialized := false |} in
  match _initialize_gemini H (config this) with
  | (Return _, calls, logs) => (Return this, calls, logs)
  | (Raise e, calls, logs) => (Raise e, calls, logs)
  end.

Definition get_analyzer_instance (H : Host)
  : Outcome KUHPAnalyzer * list InitCall * list InitLog :=
  __init__ H.

(** The dictionary returned by [get_status]. *)
Module Status.

Record t : Type := {
  model_name : string;
  is_initialized : bool;
  files_uploaded : bool;
  old_kuhp_file : option string;
  new_kuhp_file : option string
}.

End Status.

Definition get_status (a : KUHPAnalyzer) : Status.t := {|
  Status.model_name := model_name (config a);
  Status.is_initialized := is_initialized a;
  Status.files_uploaded := is_set (old_kuhp_file a) && is_set (new_kuhp_file a);
  Status.old_kuhp_file :=
    match old_kuhp_file a with Some f => Some (display_name f) | None => None end;
  Status.new_kuhp_file :=
    match new_kuhp_file a with Some f => Some (display_name f) | None => None end
|}.

(** A host where everything is in place, and one without the key. *)
Definition good_host : Host := {|
  GENAI_AVAILABLE := true;
  getenv_GEMINI_API_KEY := Some "secret";
  genai_configure := fun _ => None;
  genai_GenerativeModel := fun _ => None
|}.

Definition empty_key_host : Host := {|
  GENAI_AVAILABLE := true;
  getenv_GEMINI_API_KEY := Some "";
  genai_configure := fun _ => None;
  genai_GenerativeModel := fun _ => None
|}.

(* ================================================================= *)
(** ** More vocabulary: counting calls, worlds *)

Definition is_upload (ev : Event) : bool :=
  match ev with EvUpload _ _ => true | _ => false end.

Definition count_lookup (evs : list Event) : nat :=
  List.length (filter is_lookup evs).

Definition count_upload (evs : list Event) : nat :=
  List.length (filter is_upload evs).

(** The look-ups of one poll that is answered: one for each handle
    that is set, old first. *)
Definition lookups_of (a : KUHPAnalyzer) : list Event :=
  match old_kuhp_file a with Some o => [EvGetFile (name o)] | None => [] end ++
  match new_kuhp_file a with Some n => [EvGetFile (name n)] | None => [] end.

(** The external calls of one round of waiting that finds the files not
    ready: the look-ups, then the sleep. *)
Definition waiting_round (a : KUHPAnalyzer) : list Event :=
  lookups_of a ++ [EvSleep wait_interval].

Definition is_verification_failed (l : LogLine) : bool :=
  match l with LogVerificationFailed _ => true | _ => false end.

(** How many times a verification failure was printed. *)
Definition verification_failures (logs : list LogLine) : nat :=
  List.length (filter is_verification_failed logs).

(** The file store answers every look-up (it never raises). *)
Definition lookups_answered (E : Env) : Prop :=
  forall h file_name, exists info, get_file E h file_name = inr info.

(** The file store never reports the file named [file_name] ACTIVE. *)
Definition never_active (E : Env) (file_name : string) : Prop :=
  forall h, exists info,
    get_file E h file_name = inr info /\ state_name info <> "ACTIVE".

(** The file store reports every file ACTIVE, always. *)
Definition always_active (E : Env) : Prop :=
  forall h file_name, exists info,
    get_file E h file_name = inr info /\ state_name info = "ACTIVE".

(** The generation service always answers with an empty text. *)
Definition always_empty (E : Env) : Prop :=
  forall h content, exists r,
    generate_content E h content = inr r /\ text r = "".

(** [str.lower] works character by character. *)
Definition lower_distributes (E : Env) : Prop :=
  forall a b, str_lower E (a ++ b)%string = (str_lower E a ++ str_lower E b)%string.

(** The file store accepts every upload. *)
Definition uploads_succeed (E : Env) : Prop :=
  forall h path display, exists f, upload_file E h path display = inr f.

(** [after_calls E s s']: [s'] is [s] after any number of calls of
    [load_documents] and [analyze_differences]. *)
Inductive after_calls (E : Env) (s : St) : St -> Prop :=
| after_none : after_calls E s s
| after_load : forall s',
    after_calls E s s' -> after_calls E s (snd (load_documents E s'))
| after_analyze : forall s' query,
    after_calls E s s' -> after_calls E s (snd (analyze_differences E query s')).

(** The keyword list without the entries that contain another entry. *)
Definition core_keywords : list string := [
  "kuhp"; "pasal"; "pidana"; "kejahatan"; "pelanggaran";
  "pencurian"; "pembunuhan"; "penganiayaan"; "penipuan"; "korupsi";
  "perkosaan"; "narkoba"; "terorisme"; "cyber";
  "sanksi"; "hukuman"; "denda"; "penjara"; "kurungan"; "tahanan";
  "delik"; "unsur"; "ancaman"; "maksimal"; "minimal"
].

(** The old upload fails in this world. *)
Definition quota : exn := Exn "ResourceExhausted" "429 quota exceeded".

Definition upload_failing_env : Env := {|
  str_lower := ascii_lower;
  path_exists := fun _ => true;
  upload_file := fun _ _ _ => inl quota;
  get_file := fun _ _ => inr {| state_name := "ACTIVE" |};
  generate_content := fun _ _ => inr {| text := "jawaban" |}
|}.

(* ================================================================= *)
(** ** Proof automation *)

Ltac unfold_py :=
  unfold try_except, bind, ret, raise, print, sleep, get_self, set_self,
    genai_get_file, genai_upload_file, model_generate_content, remote,
    attr_name, emit in *; simpl in *.

Ltac unfold_load :=
  unfold load_documents, set_old_kuhp_file, set_new_kuhp_file, set_is_initialized;
  unfold_py.

(** Closes [extends s s' ?evs ?logs] when [s'] is [s] with events and
    lines appended one at a time. *)
Ltac close_extends :=
  unfold extends; simpl;
  split; [reflexivity|];
  split; (first [ rewrite <- ?app_assoc; reflexivity
                | symmetry; apply app_nil_r ]).

(* ================================================================= *)
(** ** Substring test *)

Lemma prefix_app (p s : string) :
  prefix p s = true <-> exists after, s = (p ++ after)%string.
Proof.
  revert s. induction p as [|c p IH]; intros s.
  - split; [intros _; exists s; reflexivity | destruct s; reflexivity].
  - destruct s as [|d s]; simpl.
    + split; [discriminate | intros [after H]; discriminate].
    + destruct (ascii_dec c d) as [->|Hne].
      * rewrite IH. split; intros [after H]; exists after.
        -- rewrite H. reflexivity.
        -- injection H as H. exact H.
      * split; [discriminate | intros [after H]; injection H as H1 H2; congruence].
Qed.

Lemma contains_is_substring (needle hay : string) :
  contains needle hay = true <-> is_substring needle hay.
Proof.
  unfold is_substring. induction hay as [|c hay IH]; cbn [contains].
  - rewrite orb_false_r, prefix_app. split.
    + intros [after H]. exists "", after. exact H.
    + intros [[|b before] [after H]]; [exists after; exact H | discriminate].
  - rewrite orb_true_iff, prefix_app, IH. split.
    + intros [[after H] | [before [after H]]].
      * exists "", after. exact H.
      * exists (String c before), after. simpl. rewrite H. reflexivity.
    + intros [[|b before] [after H]].
      * left. exists after. exact H.
      * right. injection H as _ H. exists before, after. exact H.
Qed.

(** C4. The relevance filter answers [true] exactly when the
    lower-cased query contains one of the fixed keywords as a substring
    (at any position, no tokenisation); it is a total function of the
    query and of [str.lower] alone. *)
Theorem check_query_relevance_iff (E : Env) (query : string) :
  _check_query_relevance E query = true <->
  exists keyword, In keyword kuhp_keywords /\
                  is_substring keyword (str_lower E query).
Proof.
  unfold _check_query_relevance. rewrite existsb_exists.
  split; intros [kw [Hin H]]; exists kw; split; try assumption;
    apply contains_is_substring; assumption.
Qed.

(** The two examples of the specification, and the substring quirk. *)
Example relevance_examples :
  let E := steady_env "ACTIVE" "jawaban" in
  _check_query_relevance E "Apa sanksi pencurian?" = true /\
  _check_query_relevance E "Bagaimana cuaca hari ini?" = false /\
  _check_query_relevance E "APA ITU KUHP" = true /\
  _check_query_relevance E "resep kue minimalis" = true.
Proof. repeat split; reflexivity. Qed.

(* ================================================================= *)
(** ** Reading traces *)

Lemma sleeps_of_app (l1 l2 : list Event) :
  sleeps_of (l1 ++ l2) = sleeps_of l1 ++ sleeps_of l2.
Proof.
  induction l1 as [|ev l1 IH]; simpl; [reflexivity|].
  destruct ev; simpl; rewrite IH; reflexivity.
Qed.

Lemma count_generate_app (l1 l2 : list Event) :
  count_generate (l1 ++ l2) = (count_generate l1 + count_generate l2)%nat.
Proof. unfold count_generate. rewrite filter_app, length_app. reflexivity. Qed.

Lemma guarded_app (E : Env) (a : KUHPAnalyzer) (l1 l2 hist : list Event) :
  guarded E a hist (l1 ++ l2) <->
  guarded E a hist l1 /\ guarded E a (hist ++ l1) l2.
Proof.
  revert hist. induction l1 as [|ev l1 IH]; intros hist; simpl.
  - rewrite app_nil_r. tauto.
  - rewrite IH, <- app_assoc. simpl. tauto.
Qed.

(** The scanning predicate says what it should about any occurrence of
    a generation call. *)
Lemma guarded_occurrence (E : Env) (a : KUHPAnalyzer) (evs hist before after : list Event)
    (content : list Part) :
  guarded E a hist evs ->
  evs = before ++ EvGenerate content :: after ->
  observed_active E a (hist ++ before).
Proof.
  intros G ->. apply guarded_app in G. destruct G as [_ G].
  simpl in G. apply G.
Qed.

Lemma lookups_guarded (E : Env) (a : KUHPAnalyzer) (evs hist : list Event) :
  forallb is_lookup evs = true -> guarded E a hist evs.
Proof.
  revert hist. induction evs as [|ev evs IH]; intros hist H; simpl in *; [exact I|].
  apply andb_true_iff in H. destruct H as [H1 H2].
  destruct ev; try discriminate. simpl. split; [exact I | apply IH; exact H2].
Qed.

Lemma lookups_payload (a : KUHPAnalyzer) (prompt : string) (evs : list Event) :
  forallb is_lookup evs = true -> Forall (payload_ok a prompt) evs.
Proof.
  intros H. apply Forall_forall. intros ev Hin.
  rewrite forallb_forall in H. specialize (H ev Hin).
  destruct ev; try discriminate. exact I.
Qed.

Lemma lookups_no_sleep (evs : list Event) :
  forallb is_lookup evs = true -> sleeps_of evs = [].
Proof.
  induction evs as [|ev evs IH]; simpl; [reflexivity|].
  intros H. apply andb_true_iff in H. destruct H as [H1 H2].
  destruct ev; try discriminate. apply IH. exact H2.
Qed.

Lemma lookups_no_generate (evs : list Event) :
  forallb is_lookup evs = true -> count_generate evs = 0%nat.
Proof.
  unfold count_generate. induction evs as [|ev evs IH]; simpl; [reflexivity|].
  intros H. apply andb_true_iff in H. destruct H as [H1 H2].
  destruct ev; try discriminate. simpl. apply IH. exact H2.
Qed.

Lemma failures_of_app (l1 l2 : list LogLine) :
  failures_of (l1 ++ l2) = failures_of l1 ++ failures_of l2.
Proof.
  induction l1 as [|l l1 IH]; simpl; [reflexivity|].
  destruct l; simpl; rewrite IH; reflexivity.
Qed.

Lemma extends_refl (s : St) : extends s s [] [].
Proof. unfold extends. rewrite !app_nil_r. repeat split. Qed.

Lemma extends_trans (s s1 s2 : St) (e1 e2 : list Event) (l1 l2 : list LogLine) :
  extends s s1 e1 l1 -> extends s1 s2 e2 l2 ->
  extends s s2 (e1 ++ e2) (l1 ++ l2).
Proof.
  unfold extends. intros (A1 & B1 & C1) (A2 & B2 & C2).
  rewrite A2, A1, B2, B1, C2, C1, !app_assoc. repeat split.
Qed.

Lemma extends_print (s : St) (l : LogLine) :
  extends s (snd (print l s)) [] [l].
Proof. unfold extends, print. simpl. rewrite app_nil_r. repeat split. Qed.

Lemma extends_emit (s : St) (ev : Event) :
  extends s (emit ev s) [ev] [].
Proof. unfold extends, emit. simpl. rewrite app_nil_r. repeat split. Qed.

(* ================================================================= *)
(** ** Readiness verification *)

(** What one call of [_verify_files_ready] does.  It returns normally
    only after looking both documents up and reading ACTIVE twice,
    printing nothing; in every other case it raises after look-ups
    only.  The analyzer's fields are never touched. *)
Lemma verify_files_ready_run (E : Env) (s : St) :
  match _verify_files_ready E s with
  | (Return _, s') =>
      exists o n,
        old_kuhp_file (self s) = Some o /\ new_kuhp_file (self s) = Some n /\
        extends s s' [EvGetFile (name o); EvGetFile (name n)] [] /\
        observed_active E (self s) (trace s')
  | (Raise e, s') =>
      exists evs logs,
        extends s s' evs logs /\
        forallb is_lookup evs = true /\ failures_of logs = []
  end.
Proof.
  unfold _verify_files_ready. unfold_py.
  destruct (old_kuhp_file (self s)) as [o|] eqn:Ho; simpl;
    [| do 2 eexists; split; [close_extends | split; reflexivity] ].
  destruct (get_file E (trace s) (name o)) as [e|io] eqn:Go; simpl;
    [ do 2 eexists; split; [close_extends | split; reflexivity] |].
  destruct (new_kuhp_file (self s)) as [n|] eqn:Hn; simpl;
    [| do 2 eexists; split; [close_extends | split; reflexivity] ].
  destruct (get_file E (trace s ++ [EvGetFile (name o)]) (name n)) as [e|inn] eqn:Gn; simpl;
    [ do 2 eexists; split; [close_extends | split; reflexivity] |].
  destruct (String.eqb (state_name io) "ACTIVE") eqn:Ao; simpl;
    [| do 2 eexists; split; [close_extends | split; reflexivity] ].
  destruct (String.eqb (state_name inn) "ACTIVE") eqn:An; simpl;
    [| do 2 eexists; split; [close_extends | split; reflexivity] ].
  apply String.eqb_eq in Ao, An.
  exists o, n. split; [reflexivity|]. split; [reflexivity|].
  split; [close_extends|].
  exists (trace s), o, n, io, inn. rewrite <- app_assoc.
  repeat split; assumption.
Qed.

(* ================================================================= *)
(** ** One generation attempt *)

(** What one attempt does: it only looks files up and calls the
    generation service at most once, guarded by the readiness
    observation and with the fixed payload; it never sleeps, never
    touches the analyzer's fields, and a text it returns is non-empty. *)
Lemma attempt_body_run (E : Env) (prompt : string) (attempt : Z) (s : St) :
  exists evs logs,
    extends s (snd (attempt_body E prompt attempt s)) evs logs /\
    guarded E (self s) (trace s) evs /\
    Forall (payload_ok (self s) prompt) evs /\
    sleeps_of evs = [] /\
    (count_generate evs <= 1)%nat /\
    failures_of logs = [] /\
    (forall t, fst (attempt_body E prompt attempt s) = Return t ->
               truthy t = true /\ count_generate evs = 1%nat).
Proof.
  unfold attempt_body, bind. cbv beta.
  pose proof (verify_files_ready_run E s) as V.
  destruct (_verify_files_ready E s) as [[[]|e] s1]; simpl.
  - destruct V as (o & n & Ho & Hn & X & Obs).
    destruct X as (Hself & Htrace & Hout). rewrite app_nil_r in Hout.
    unfold_py. rewrite Hself.
    set (content := [PFile (old_kuhp_file (self s));
                     PFile (new_kuhp_file (self s)); PText prompt]).
    assert (G : guarded E (self s) (trace s)
                  [EvGetFile (name o); EvGetFile (name n); EvGenerate content]).
    { simpl. repeat split. rewrite <- app_assoc. simpl.
      rewrite <- Htrace. exact Obs. }
    assert (P : Forall (payload_ok (self s) prompt)
                  [EvGetFile (name o); EvGetFile (name n); EvGenerate content]).
    { repeat constructor. }
    assert (C : count_generate
                  [EvGetFile (name o); EvGetFile (name n); EvGenerate content] = 1%nat)
      by reflexivity.
    exists [EvGetFile (name o); EvGetFile (name n); EvGenerate content],
      [LogGenerating (attempt + 1) max_retries].
    destruct (generate_content E (trace s1) content) as [e|resp]; simpl;
      [| destruct (truthy (text resp)) eqn:T; simpl];
      (split;
       [ unfold extends; simpl; rewrite Htrace, Hout, <- app_assoc; repeat split |]);
      (split; [exact G|]); (split; [exact P|]); (split; [reflexivity|]);
      (split; [rewrite C; lia|]); (split; [reflexivity|]);
      intros t H; try discriminate.
    injection H as <-. split; [exact T | exact C].
  - destruct V as (evs & logs & X & L & F).
    exists evs, logs. split; [exact X|].
    split; [apply lookups_guarded; exact L|].
    split; [apply lookups_payload; exact L|].
    split; [apply lookups_no_sleep; exact L|].
    split; [rewrite lookups_no_generate by exact L; lia|].
    split; [exact F|]. discriminate.
Qed.

(* ================================================================= *)
(** ** The retry loop *)

Lemma extends_backoff (attempt : Z) (e : exn) (d : Z) (s : St) :
  extends s (backoff attempt e d s) [EvSleep d]
    [LogGenerationFailed (attempt + 1) e; LogRetrying d].
Proof. unfold backoff. unfold_py. close_extends. Qed.

Lemma extends_final_failure (attempt : Z) (e : exn) (s : St) :
  extends s (final_failure attempt e s) [] [LogGenerationFailed (attempt + 1) e].
Proof. unfold final_failure. unfold_py. close_extends. Qed.

(** One iteration of the loop. *)
Lemma generate_loop_cons (E : Env) (prompt : string) (attempt : Z)
    (rest : list Z) (retry_delay : Z) (s : St) :
  generate_loop E prompt (attempt :: rest) retry_delay s =
  match attempt_body E prompt attempt s with
  | (Return t, s1) => (Return (Some t), s1)
  | (Raise e, s1) =>
      if attempt <? max_retries - 1
      then generate_loop E prompt rest (retry_delay * 2)
             (backoff attempt e retry_delay s1)
      else (Raise e, final_failure attempt e s1)
  end.
Proof.
  cbn [generate_loop]. unfold try_except at 1. unfold bind at 1.
  destruct (attempt_body E prompt attempt s) as [[t|e] s1]; [reflexivity|].
  unfold bind at 1. unfold print at 1. cbv beta iota.
  destruct (attempt <? max_retries - 1); reflexivity.
Qed.

(** The three iterations of [range(3)] written out. *)
Lemma generate_unrolled (E : Env) (prompt : string) (s : St) :
  _generate_response_with_files E prompt s =
  match attempt_body E prompt 0 s with
  | (Return t, s1) => (Return (Some t), s1)
  | (Raise e1, s1) =>
      match attempt_body E prompt 1 (backoff 0 e1 2 s1) with
      | (Return t, s2) => (Return (Some t), s2)
      | (Raise e2, s2) =>
          match attempt_body E prompt 2 (backoff 1 e2 4 s2) with
          | (Return t, s3) => (Return (Some t), s3)
          | (Raise e3, s3) => (Raise e3, final_failure 2 e3 s3)
          end
      end
  end.
Proof.
  unfold _generate_response_with_files.
  change (range max_retries) with [0; 1; 2].
  rewrite generate_loop_cons.
  destruct (attempt_body E prompt 0 s) as [[t|e1] s1]; [reflexivity|].
  change (0 <? max_retries - 1) with true. cbv iota.
  change (initial_retry_delay * 2) with 4. change initial_retry_delay with 2.
  rewrite generate_loop_cons.
  destruct (attempt_body E prompt 1 (backoff 0 e1 2 s1)) as [[t|e2] s2]; [reflexivity|].
  change (1 <? max_retries - 1) with true. cbv iota.
  rewrite generate_loop_cons.
  destruct (attempt_body E prompt 2 (backoff 1 e2 4 s2)) as [[t|e3] s3]; reflexivity.
Qed.

(** Every run of the loop, over any list of attempts: generation calls
    are guarded and carry the fixed payload, there are no more of them
    than attempts, and the analyzer's fields are left alone. *)
Lemma generate_loop_run (E : Env) (prompt : string) (attempts : list Z) :
  forall (retry_delay : Z) (s : St),
  exists evs logs,
    extends s (snd (generate_loop E prompt attempts retry_delay s)) evs logs /\
    guarded E (self s) (trace s) evs /\
    Forall (payload_ok (self s) prompt) evs /\
    (count_generate evs <= List.length attempts)%nat.
Proof.
  induction attempts as [|attempt rest IH]; intros d s.
  - exists [], []. simpl. split; [apply extends_refl|].
    split; [exact I|]. split; [constructor | unfold count_generate; simpl; lia].
  - rewrite generate_loop_cons.
    destruct (attempt_body_run E prompt attempt s)
      as (evs1 & logs1 & X1 & G1 & P1 & _ & C1 & _ & _).
    destruct (attempt_body E prompt attempt s) as [[t|e] s1]; simpl in X1.
    + exists evs1, logs1. simpl. repeat split; try assumption; try apply X1. lia.
    + destruct (attempt <? max_retries - 1).
      * pose proof (extends_backoff attempt e d s1) as X2.
        pose proof (extends_trans _ _ _ _ _ _ _ X1 X2) as X12.
        destruct (IH (d * 2) (backoff attempt e d s1))
          as (evs3 & logs3 & X3 & G3 & P3 & C3).
        pose proof (extends_trans _ _ _ _ _ _ _ X12 X3) as X.
        destruct X12 as (Hself & Htrace & _).
        rewrite Hself, Htrace in G3. rewrite Hself in P3.
        exists ((evs1 ++ [EvSleep d]) ++ evs3),
          ((logs1 ++ [LogGenerationFailed (attempt + 1) e; LogRetrying d]) ++ logs3).
        split; [exact X|]. split.
        { apply guarded_app. split; [|exact G3].
          apply guarded_app. split; [exact G1|]. simpl. split; exact I. }
        split.
        { apply Forall_app. split; [|exact P3].
          apply Forall_app. split; [exact P1|]. repeat constructor. }
        rewrite !count_generate_app. simpl.
        change (count_generate [EvSleep d]) with 0%nat. lia.
      * pose proof (extends_final_failure attempt e s1) as X2.
        pose proof (extends_trans _ _ _ _ _ _ _ X1 X2) as X.
        rewrite app_nil_r in X.
        exists evs1, (logs1 ++ [LogGenerationFailed (attempt + 1) e]).
        simpl. split; [exact X|]. repeat split; try assumption. lia.
Qed.

(* ================================================================= *)
(** ** Claims about the retrying generation routine *)

(** An attempt returns a text only as the answer of its generation
    call: the call is the last external call of the attempt, the
    service answered it with that text, and the text is not empty. *)
Lemma attempt_body_return (E : Env) (prompt : string) (attempt : Z) (s : St)
    (t : string) :
  fst (attempt_body E prompt attempt s) = Return t ->
  truthy t = true /\
  exists hist content r,
    trace (snd (attempt_body E prompt attempt s)) = hist ++ [EvGenerate content] /\
    generate_content E hist content = inr r /\ text r = t.
Proof.
  unfold attempt_body, bind. cbv beta.
  destruct (_verify_files_ready E s) as [[[]|e] s1]; simpl; [|discriminate].
  unfold_py.
  match goal with
  | |- context [generate_content E ?h ?c] =>
      destruct (generate_content E h c) as [e|resp] eqn:G; simpl; [discriminate|];
      destruct (truthy (text resp)) eqn:T; simpl; [|discriminate];
      intros H; injection H as <-; split; [exact T|];
      exists h, c, resp; repeat split; exact G
  end.
Qed.

(** C1. For every prompt, starting state and outside world, the
    retrying generation routine runs the attempt at most three times,
    numbered 0, 1 and 2.  It returns the text of the first attempt
    that returns; after a failed attempt that is not the last it
    prints, sleeps (2 after the first failure, 4 after the second) and
    goes on; and when the third attempt raises, the routine raises
    that very exception: no failure of the last attempt is swallowed.
    Seen from outside: at most three generation calls are made; a
    returned text is the non-empty answer of the last generation call,
    given after at most two failed attempts, with the delays slept a
    prefix of 2, 4; a raised exception comes after exactly three failed
    attempts and the delays 2 then 4, and is the exception of the third
    attempt. *)
Theorem generate_three_attempts_backoff (E : Env) (prompt : string) (s : St) :
  _generate_response_with_files E prompt s =
    match attempt_body E prompt 0 s with
    | (Return t, s1) => (Return (Some t), s1)
    | (Raise e1, s1) =>
        match attempt_body E prompt 1 (backoff 0 e1 2 s1) with
        | (Return t, s2) => (Return (Some t), s2)
        | (Raise e2, s2) =>
            match attempt_body E prompt 2 (backoff 1 e2 4 s2) with
            | (Return t, s3) => (Return (Some t), s3)
            | (Raise e3, s3) => (Raise e3, final_failure 2 e3 s3)
            end
        end
    end /\
  exists evs logs,
    extends s (snd (_generate_response_with_files E prompt s)) evs logs /\
    (count_generate evs <= 3)%nat /\
    match fst (_generate_response_with_files E prompt s) with
    | Return v =>
        exists t, v = Some t /\ truthy t = true /\
          (List.length (failures_of logs) <= 2)%nat /\
          sleeps_of evs = firstn (List.length (failures_of logs)) [2; 4] /\
          exists hist content r,
            trace (snd (_generate_response_with_files E prompt s)) =
              hist ++ [EvGenerate content] /\
            generate_content E hist content = inr r /\ text r = t
    | Raise e =>
        sleeps_of evs = [2; 4] /\
        exists e1 e2 s3,
          failures_of logs = [(1, e1); (2, e2); (3, e)] /\
          fst (attempt_body E prompt 2 s3) = Raise e /\
          snd (_generate_response_with_files E prompt s) =
            final_failure 2 e (snd (attempt_body E prompt 2 s3))
    end.
Proof.
  split; [apply generate_unrolled|].
  rewrite generate_unrolled.
  destruct (attempt_body_run E prompt 0 s)
    as (evs1 & logs1 & X1 & _ & _ & S1 & C1 & F1 & T1).
  pose proof (attempt_body_return E prompt 0 s) as R1.
  destruct (attempt_body E prompt 0 s) as [[t|e1] s1]; simpl in X1, T1, R1.
  { exists evs1, logs1. simpl. split; [exact X1|]. split; [lia|].
    exists t. rewrite F1, S1. simpl.
    destruct (R1 t eq_refl) as (Ht & Hgen).
    repeat split; try lia; assumption. }
  clear R1.
  pose proof (extends_trans _ _ _ _ _ _ _ X1 (extends_backoff 0 e1 2 s1)) as X1'.
  destruct (attempt_body_run E prompt 1 (backoff 0 e1 2 s1))
    as (evs2 & logs2 & X2 & _ & _ & S2 & C2 & F2 & T2).
  pose proof (attempt_body_return E prompt 1 (backoff 0 e1 2 s1)) as R2.
  destruct (attempt_body E prompt 1 (backoff 0 e1 2 s1)) as [[t|e2] s2];
    simpl in X2, T2, R2.
  { pose proof (extends_trans _ _ _ _ _ _ _ X1' X2) as X.
    eexists; eexists. split; [exact X|]. simpl.
    rewrite !count_generate_app, !failures_of_app, !sleeps_of_app, F1, F2, S1, S2.
    simpl. change (count_generate [EvSleep 2]) with 0%nat.
    split; [lia|]. exists t.
    destruct (R2 t eq_refl) as (Ht & Hgen).
    repeat split; try lia; assumption. }
  clear R2.
  pose proof (extends_trans _ _ _ _ _ _ _ X1' X2) as X12.
  pose proof (extends_trans _ _ _ _ _ _ _ X12 (extends_backoff 1 e2 4 s2)) as X2'.
  destruct (attempt_body_run E prompt 2 (backoff 1 e2 4 s2))
    as (evs3 & logs3 & X3 & _ & _ & S3 & C3 & F3 & T3).
  pose proof (attempt_body_return E prompt 2 (backoff 1 e2 4 s2)) as R3.
  destruct (attempt_body E prompt 2 (backoff 1 e2 4 s2)) as [[t|e3] s3] eqn:A3;
    simpl in X3, T3, R3.
  { pose proof (extends_trans _ _ _ _ _ _ _ X2' X3) as X.
    eexists; eexists. split; [exact X|]. simpl.
    rewrite !count_generate_app, !failures_of_app, !sleeps_of_app,
      F1, F2, F3, S1, S2, S3.
    simpl. change (count_generate [EvSleep 2]) with 0%nat.
    change (count_generate [EvSleep 4]) with 0%nat.
    split; [lia|]. exists t.
    destruct (R3 t eq_refl) as (Ht & Hgen).
    repeat split; try lia; assumption. }
  pose proof (extends_trans _ _ _ _ _ _ _ X2' X3) as X123.
  pose proof (extends_trans _ _ _ _ _ _ _ X123 (extends_final_failure 2 e3 s3)) as X.
  eexists; eexists. split; [exact X|]. simpl.
  rewrite !count_generate_app, !failures_of_app, !sleeps_of_app,
    F1, F2, F3, S1, S2, S3.
  simpl. change (count_generate [EvSleep 2]) with 0%nat.
  change (count_generate [EvSleep 4]) with 0%nat.
  change (count_generate []) with 0%nat.
  split; [lia|]. split; [reflexivity|].
  exists e1, e2, (backoff 1 e2 4 s2). rewrite A3. simpl.
  repeat split.
Qed.

(** C1, run: generation always fails; three attempts, delays 2 and 4,
    and the service's own exception comes out. *)
Example generate_three_attempts_run :
  let run := _generate_response_with_files failing_env "p" loaded in
  fst run = Raise unavailable /\
  sleeps_of (skipn (List.length (trace loaded)) (trace (snd run))) = [2; 4] /\
  count_generate (trace (snd run)) = 3%nat /\
  failures_of (stdout (snd run)) =
    [(1, unavailable); (2, unavailable); (3, unavailable)].
Proof. vm_compute. repeat split. Qed.

(** C2. Every generation call made by the retrying routine, on any
    attempt and from any state, carries exactly the payload
    [old-document handle; new-document handle; prompt], in this order,
    and both handles are set. *)
Theorem payload_old_new_prompt (E : Env) (prompt : string) (s : St) :
  exists evs logs,
    extends s (snd (_generate_response_with_files E prompt s)) evs logs /\
    forall content, In (EvGenerate content) evs ->
      exists o n,
        old_kuhp_file (self s) = Some o /\ new_kuhp_file (self s) = Some n /\
        content = [PFile (Some o); PFile (Some n); PText prompt].
Proof.
  unfold _generate_response_with_files.
  destruct (generate_loop_run E prompt (range max_retries) initial_retry_delay s)
    as (evs & logs & X & G & P & _).
  exists evs, logs. split; [exact X|].
  intros content Hin.
  rewrite Forall_forall in P. pose proof (P _ Hin) as Pc. simpl in Pc.
  apply in_split in Hin. destruct Hin as (before & after & Hsplit).
  pose proof (guarded_occurrence _ _ _ _ _ _ _ G Hsplit) as Obs.
  destruct Obs as (h0 & o & n & io & inn & Ho & Hn & _).
  exists o, n. rewrite <- Ho, <- Hn. repeat split. exact Pc.
Qed.

(** C2, run: the trace of one successful query ends with one generation
    call whose payload is the old handle, the new handle, the prompt. *)
Example payload_run :
  let run := _generate_response_with_files (steady_env "ACTIVE" "jawaban") "p" loaded in
  skipn (List.length (trace loaded)) (trace (snd run)) =
    [EvGetFile "files/KUHP Lama"; EvGetFile "files/KUHP Baru";
     EvGenerate [PFile (Some (uploaded "KUHP Lama"));
                 PFile (Some (uploaded "KUHP Baru")); PText "p"]].
Proof. vm_compute. reflexivity. Qed.

(** C2 at a concrete run: the generation call of a successful query on
    the loaded analyzer carries the two uploaded handles and the prompt. *)
Lemma payload_old_new_prompt_witness :
  exists o n,
    old_kuhp_file (self loaded) = Some o /\ new_kuhp_file (self loaded) = Some n /\
    [PFile (Some (uploaded "KUHP Lama")); PFile (Some (uploaded "KUHP Baru")); PText "p"] =
    [PFile (Some o); PFile (Some n); PText "p"].
Proof.
  destruct (payload_old_new_prompt (steady_env "ACTIVE" "jawaban") "p" loaded)
    as (evs & logs & (_ & Htrace & _) & H).
  apply H.
  assert (Hevs : evs =
    [EvGetFile "files/KUHP Lama"; EvGetFile "files/KUHP Baru";
     EvGenerate [PFile (Some (uploaded "KUHP Lama"));
                 PFile (Some (uploaded "KUHP Baru")); PText "p"]]).
  { apply (app_inv_head (trace loaded)). rewrite <- Htrace. vm_compute. reflexivity. }
  rewrite Hevs. right. right. left. reflexivity.
Defined.

(** C5. (1) In every run of the retrying routine, the history right
    before any generation call ends with the look-ups of both
    documents, both answered ACTIVE: a generation call is only made
    right after a successful readiness verification.  (2) When the
    verification raises, the attempt raises the same exception in the
    same state, having made look-ups only.  (3) When both look-ups are
    answered and a state is not ACTIVE, the verification raises the
    "file is not active" exception.  (4) A failed attempt that is not
    the last one is followed by the back-off and the remaining
    attempts. *)
Theorem generation_only_after_active (E : Env) (prompt : string) (s : St) :
  (exists evs logs,
     extends s (snd (_generate_response_with_files E prompt s)) evs logs /\
     forall before content after,
       evs = before ++ EvGenerate content :: after ->
       observed_active E (self s) (trace s ++ before)) /\
  (forall attempt e s1,
     _verify_files_ready E s = (Raise e, s1) ->
     attempt_body E prompt attempt s = (Raise e, s1) /\
     exists evs, trace s1 = trace s ++ evs /\ forallb is_lookup evs = true) /\
  (forall o n io inn,
     old_kuhp_file (self s) = Some o -> new_kuhp_file (self s) = Some n ->
     get_file E (trace s) (name o) = inr io ->
     get_file E (trace s ++ [EvGetFile (name o)]) (name n) = inr inn ->
     (state_name io <> "ACTIVE" ->
      fst (_verify_files_ready E s) =
        Raise (Exception ("KUHP Lama file is not active: " ++ state_name io)%string)) /\
     (state_name io = "ACTIVE" -> state_name inn <> "ACTIVE" ->
      fst (_verify_files_ready E s) =
        Raise (Exception ("KUHP Baru file is not active: " ++ state_name inn)%string))) /\
  (forall attempt rest retry_delay e s1,
     attempt_body E prompt attempt s = (Raise e, s1) ->
     attempt < max_retries - 1 ->
     generate_loop E prompt (attempt :: rest) retry_delay s =
     generate_loop E prompt rest (retry_delay * 2) (backoff attempt e retry_delay s1)).
Proof.
  split; [|split; [|split]].
  - unfold _generate_response_with_files.
    destruct (generate_loop_run E prompt (range max_retries) initial_retry_delay s)
      as (evs & logs & X & G & _).
    exists evs, logs. split; [exact X|].
    intros before content after Hsplit.
    exact (guarded_occurrence _ _ _ _ _ _ _ G Hsplit).
  - intros attempt e s1 V. split.
    + unfold attempt_body. unfold bind at 1. rewrite V. reflexivity.
    + pose proof (verify_files_ready_run E s) as R. rewrite V in R.
      destruct R as (evs & logs & (_ & Htrace & _) & L & _).
      exists evs. split; assumption.
  - intros o n io inn Ho Hn Go Gn.
    unfold _verify_files_ready. unfold_py. rewrite Ho. simpl.
    rewrite Go. simpl. rewrite Hn. simpl. rewrite Gn. simpl. split.
    + intros Hne. apply String.eqb_neq in Hne. rewrite Hne. reflexivity.
    + intros Heq Hne. apply String.eqb_eq in Heq. apply String.eqb_neq in Hne.
      rewrite Heq, Hne. reflexivity.
  - intros attempt rest d e s1 A Hlt.
    rewrite generate_loop_cons, A.
    apply Z.ltb_lt in Hlt. rewrite Hlt. reflexivity.
Qed.

(** C5, run: with both files stuck in PROCESSING the routine verifies
    three times, never calls the generation service, sleeps 2 then 4,
    and raises the not-active error of the old document. *)
Example generation_only_after_active_run :
  let run := _generate_response_with_files (steady_env "PROCESSING" "jawaban") "p" loaded in
  fst run = Raise (Exception "KUHP Lama file is not active: PROCESSING") /\
  count_generate (trace (snd run)) = 0%nat /\
  sleeps_of (trace (snd run)) = [2; 4].
Proof. vm_compute. repeat split. Qed.

(** C5 at a concrete run: right before the generation call of a
    successful query, both documents were looked up and found ACTIVE. *)
Lemma generation_only_after_active_witness :
  observed_active (steady_env "ACTIVE" "jawaban") (self loaded)
    (trace loaded ++ [EvGetFile "files/KUHP Lama"; EvGetFile "files/KUHP Baru"]).
Proof.
  destruct (generation_only_after_active (steady_env "ACTIVE" "jawaban") "p" loaded)
    as [(evs & logs & (_ & Htrace & _) & H) _].
  apply (H _ [PFile (Some (uploaded "KUHP Lama"));
              PFile (Some (uploaded "KUHP Baru")); PText "p"] []).
  apply (app_inv_head (trace loaded)). rewrite <- Htrace. vm_compute. reflexivity.
Defined.

(* ================================================================= *)
(** ** Waiting for the uploaded files *)

(** One iteration of the [while] loop. *)
Lemma wait_loop_step (E : Env) (elapsed : Z) (s : St) :
  wait_loop E elapsed s =
  if elapsed <? max_wait_time then
    match poll E s with
    | (Return true, s1) => (Return tt, snd (print LogBothActive s1))
    | (Return false, s1) => wait_loop E (elapsed + wait_interval) (idle elapsed s1)
    | (Raise e, s1) => (Raise e, s1)
    end
  else (Return tt, snd (print LogMayNotBeProcessed s)).
Proof.
  rewrite wait_loop_equation_1.
  destruct (inspect (elapsed <? max_wait_time)) as [[] Hb]; simpl; rewrite Hb.
  - unfold bind at 1. destruct (poll E s) as [[[]|e] s1]; reflexivity.
  - reflexivity.
Qed.

(** A poll only looks files up; it answers [true] only after reading
    ACTIVE for both documents. *)
Lemma poll_run (E : Env) (s : St) :
  exists evs,
    extends s (snd (poll E s)) evs [] /\
    forallb is_lookup evs = true /\
    (fst (poll E s) = Return true -> observed_active E (self s) (trace (snd (poll E s)))).
Proof.
  unfold poll, fetch_info. unfold_py.
  destruct (old_kuhp_file (self s)) as [o|] eqn:Ho; simpl.
  - destruct (get_file E (trace s) (name o)) as [e|io] eqn:Go; simpl.
    { eexists. split; [close_extends|]. split; [reflexivity | discriminate]. }
    destruct (new_kuhp_file (self s)) as [n|] eqn:Hn; simpl.
    + destruct (get_file E (trace s ++ [EvGetFile (name o)]) (name n))
        as [e|inn] eqn:Gn; simpl.
      { eexists. split; [close_extends|]. split; [reflexivity | discriminate]. }
      eexists. split; [close_extends|]. split; [reflexivity|].
      intros H. injection H as H. apply andb_true_iff in H. destruct H as [Ao An].
      apply String.eqb_eq in Ao, An.
      exists (trace s), o, n, io, inn. rewrite <- app_assoc.
      repeat split; assumption.
    + eexists. split; [close_extends|]. split; [reflexivity|].
      rewrite andb_false_r. discriminate.
  - destruct (new_kuhp_file (self s)) as [n|] eqn:Hn; simpl.
    + destruct (get_file E (trace s) (name n)) as [e|inn]; simpl.
      { eexists. split; [close_extends|]. split; [reflexivity | discriminate]. }
      eexists. split; [close_extends|]. split; [reflexivity | discriminate].
    + exists []. split; [apply extends_refl|]. split; [reflexivity | discriminate].
Qed.

Lemma lookups_are_lookup_or_sleep (evs : list Event) :
  forallb is_lookup evs = true -> forallb is_lookup_or_sleep evs = true.
Proof.
  rewrite !forallb_forall. intros H ev Hin. specialize (H ev Hin).
  destruct ev; try discriminate. reflexivity.
Qed.

(** [k] unsuccessful rounds sleep [k] times [wait_interval] and do
    nothing but look-ups and sleeps. *)
Lemma rounds_extends (E : Env) (k : nat) (elapsed : Z) (s sk : St) :
  rounds E k elapsed s sk ->
  exists evs logs,
    extends s sk evs logs /\
    sleeps_of evs = repeat wait_interval k /\
    forallb is_lookup_or_sleep evs = true.
Proof.
  induction 1 as [elapsed s | k elapsed s s1 sk Hpoll _ IH].
  - exists [], []. split; [apply extends_refl|]. split; reflexivity.
  - destruct (poll_run E s) as (evs1 & X1 & L1 & _). rewrite Hpoll in X1. simpl in X1.
    destruct IH as (evs2 & logs2 & X2 & S2 & L2).
    assert (Xi : extends s1 (idle elapsed s1) [EvSleep wait_interval]
                   [LogStillProcessing elapsed]).
    { unfold idle. unfold_py. close_extends. }
    pose proof (extends_trans _ _ _ _ _ _ _
                  (extends_trans _ _ _ _ _ _ _ X1 Xi) X2) as X.
    eexists; eexists. split; [exact X|]. split.
    + rewrite !sleeps_of_app, (lookups_no_sleep _ L1), S2. reflexivity.
    + rewrite !forallb_app, (lookups_are_lookup_or_sleep _ L1), L2. reflexivity.
Qed.

(** The loop from any value of the counter: after some unsuccessful
    rounds it ends in one of three ways: a poll finds both files
    ACTIVE (within the budget), a look-up raises (within the budget),
    or the budget is used up and the warning is printed. *)
Lemma wait_loop_run (E : Env) (n : nat) :
  forall (elapsed : Z) (s : St),
  max_wait_time - wait_interval * Z.of_nat n <= elapsed ->
  exists k sk,
    (k <= n)%nat /\ rounds E k elapsed s sk /\
    ((elapsed + wait_interval * Z.of_nat k < max_wait_time /\
      exists s', poll E sk = (Return true, s') /\
        wait_loop E elapsed s = (Return tt, snd (print LogBothActive s')))
     \/
     (elapsed + wait_interval * Z.of_nat k < max_wait_time /\
      exists e s', poll E sk = (Raise e, s') /\
        wait_loop E elapsed s = (Raise e, s'))
     \/
     (max_wait_time <= elapsed + wait_interval * Z.of_nat k /\
      wait_loop E elapsed s = (Return tt, snd (print LogMayNotBeProcessed sk)))).
Proof.
  unfold wait_interval.
  induction n as [|n IH]; intros elapsed s Hn; rewrite wait_loop_step.
  - assert (Hge : (elapsed <? max_wait_time) = false) by (apply Z.ltb_ge; lia).
    rewrite Hge. exists 0%nat, s. split; [lia|]. split; [constructor|].
    right; right. split; [lia | reflexivity].
  - destruct (elapsed <? max_wait_time) eqn:Hlt.
    2:{ apply Z.ltb_ge in Hlt. exists 0%nat, s. split; [lia|].
        split; [constructor|]. right; right. split; [lia | reflexivity]. }
    apply Z.ltb_lt in Hlt.
    destruct (poll E s) as [[[]|e] s1] eqn:Hpoll.
    + exists 0%nat, s. split; [lia|]. split; [constructor|].
      left. split; [lia|]. exists s1. split; [exact Hpoll | reflexivity].
    + destruct (IH (elapsed + 2) (idle elapsed s1)) as (k & sk & Hk & R & Hcases);
        [lia|].
      exists (S k), sk. split; [lia|].
      split; [apply rounds_S with (s1 := s1); assumption|].
      replace (elapsed + 2 * Z.of_nat (S k)) with (elapsed + 2 + 2 * Z.of_nat k) by lia.
      exact Hcases.
    + exists 0%nat, s. split; [lia|]. split; [constructor|].
      right; left. split; [lia|]. exists e, s1. split; [exact Hpoll | reflexivity].
Qed.

Lemma time_slept_repeat (evs : list Event) (d : Z) (k : nat) :
  sleeps_of evs = repeat d k -> time_slept evs = d * Z.of_nat k.
Proof.
  unfold time_slept. intros ->.
  induction k as [|k IH]; [simpl; lia|].
  cbn [repeat fold_right]. rewrite IH. lia.
Qed.

Lemma wait_for_files_active_eq (E : Env) (s : St) :
  _wait_for_files_active E s = wait_loop E 0 (snd (print LogWaiting s)).
Proof. reflexivity. Qed.

Lemma poll_raise (E : Env) (s : St) (e : exn) :
  fst (poll E s) = Raise e -> exists h file_name, get_file E h file_name = inl e.
Proof.
  unfold poll, fetch_info. unfold_py.
  destruct (old_kuhp_file (self s)) as [o|]; simpl.
  - destruct (get_file E (trace s) (name o)) as [e1|io] eqn:Go; simpl.
    { intros H. injection H as <-. eauto. }
    destruct (new_kuhp_file (self s)) as [n|]; simpl; [|discriminate].
    destruct (get_file E (trace s ++ [EvGetFile (name o)]) (name n))
      as [e1|inn] eqn:Gn; simpl; [|discriminate].
    intros H. injection H as <-. eauto.
  - destruct (new_kuhp_file (self s)) as [n|]; simpl; [|discriminate].
    destruct (get_file E (trace s) (name n)) as [e1|inn] eqn:Gn; simpl;
      [|discriminate].
    intros H. injection H as <-. eauto.
Qed.

(** A poll that is answered looks up exactly the handles that are set,
    prints nothing, and answers [true] exactly when the history then
    ends with both documents looked up and reported ACTIVE. *)
Lemma poll_answer (E : Env) (s s1 : St) (b : bool) :
  poll E s = (Return b, s1) ->
  extends s s1 (lookups_of (self s)) [] /\
  (b = true <-> observed_active E (self s) (trace s1)).
Proof.
  unfold poll, fetch_info, lookups_of, observed_active. unfold_py.
  destruct (old_kuhp_file (self s)) as [o|] eqn:Ho; simpl.
  - destruct (get_file E (trace s) (name o)) as [e|io] eqn:Go; simpl;
      [discriminate|].
    destruct (new_kuhp_file (self s)) as [n|] eqn:Hn; simpl.
    + destruct (get_file E (trace s ++ [EvGetFile (name o)]) (name n))
        as [e|inn] eqn:Gn; simpl; [discriminate|].
      intros H. injection H as <- <-. simpl.
      split; [close_extends|]. split.
      * intros H. apply andb_true_iff in H. destruct H as [Ao An].
        apply String.eqb_eq in Ao, An.
        exists (trace s), o, n, io, inn. rewrite <- app_assoc.
        repeat split; assumption.
      * intros (h0 & o' & n' & io' & inn' & Eo & En & Eh & Go' & Ao & Gn' & An).
        injection Eo as <-. injection En as <-.
        change [EvGetFile (name o); EvGetFile (name n)]
          with ([EvGetFile (name o)] ++ [EvGetFile (name n)]) in Eh.
        rewrite app_assoc in Eh.
        apply app_inj_tail in Eh. destruct Eh as [Eh _].
        apply app_inj_tail in Eh. destruct Eh as [<- _].
        rewrite Go in Go'. injection Go' as <-.
        rewrite Gn in Gn'. injection Gn' as <-.
        apply andb_true_iff. split; apply String.eqb_eq; assumption.
    + intros H. injection H as <- <-. simpl.
      split; [close_extends|]. rewrite andb_false_r. split; [discriminate|].
      intros (h0 & o' & n' & io' & inn' & _ & En & _). discriminate.
  - destruct (new_kuhp_file (self s)) as [n|] eqn:Hn; simpl.
    + destruct (get_file E (trace s) (name n)) as [e|inn]; simpl; [discriminate|].
      intros H. injection H as <- <-. simpl.
      split; [close_extends|]. split; [discriminate|].
      intros (h0 & o' & n' & io' & inn' & Eo & _). discriminate.
    + intros H. injection H as <- <-. simpl.
      split; [close_extends|]. split; [discriminate|].
      intros (h0 & o' & n' & io' & inn' & Eo & _). discriminate.
Qed.

(** A poll that raises made look-ups only. *)
Lemma poll_raise_calls (E : Env) (s s1 : St) (e : exn) :
  poll E s = (Raise e, s1) ->
  exists final, extends s s1 final [] /\ forallb is_lookup final = true.
Proof.
  intros H. destruct (poll_run E s) as (evs & X & L & _).
  rewrite H in X. simpl in X. exists evs. split; assumption.
Qed.

(** What [k] rounds that found the files not ready did, seen from
    outside: [k] times the look-ups and the sleep, and after none of
    these look-ups did the history show both documents ACTIVE. *)
Lemma rounds_trace (E : Env) (k : nat) (elapsed : Z) (s sk : St) :
  rounds E k elapsed s sk ->
  self sk = self s /\
  trace sk = trace s ++ concat (repeat (waiting_round (self s)) k) /\
  forall j, (j < k)%nat ->
    ~ observed_active E (self s)
        (trace s ++ concat (repeat (waiting_round (self s)) j) ++ lookups_of (self s)).
Proof.
  induction 1 as [elapsed s | k elapsed s s1 sk Hpoll _ IH].
  - simpl. rewrite app_nil_r. repeat split. intros j Hj. lia.
  - destruct (poll_answer E s s1 false Hpoll) as ((Hself1 & Htrace1 & _) & Hobs).
    assert (Hselfi : self (idle elapsed s1) = self s) by exact Hself1.
    assert (Htracei : trace (idle elapsed s1) = trace s ++ waiting_round (self s)).
    { unfold idle, waiting_round. unfold_py. rewrite Htrace1, <- app_assoc.
      reflexivity. }
    destruct IH as (Hself & Htrace & Hnot).
    rewrite Hselfi in Hself, Htrace, Hnot. rewrite Htracei in Htrace, Hnot.
    split; [exact Hself|]. split.
    + rewrite Htrace. cbn [repeat concat]. rewrite <- !app_assoc. reflexivity.
    + intros [|j] Hj.
      * simpl. rewrite <- Htrace1. intros Obs. apply Hobs in Obs. discriminate.
      * cbn [repeat concat]. specialize (Hnot j ltac:(lia)).
        rewrite <- !app_assoc in Hnot. rewrite <- !app_assoc. exact Hnot.
Qed.

(** C7. The polling loop of [_wait_for_files_active] runs [k <= 30]
    rounds that find the files not ready.  In each of them it looks up
    the handles that are set, the history after these look-ups does not
    show both documents ACTIVE, and it sleeps 2; so the total time
    slept is [2 * k <= 60], and apart from look-ups and sleeps no
    external call is made.  It then ends in one of three ways.  Within
    the budget, it looks the handles up once more, the file store has
    answered ACTIVE for both documents, and it returns at once; or a
    look-up raises and the loop ends with that exception.  With the
    budget used up ([k = 30]) it makes no further call and does not
    raise: it prints the warning and returns normally. *)
Theorem wait_for_files_active_bounded (E : Env) (s : St) :
  exists k sk evs logs final,
    (k <= 30)%nat /\
    rounds E k 0 (snd (print LogWaiting s)) sk /\
    extends s (snd (_wait_for_files_active E s)) evs logs /\
    evs = concat (repeat (lookups_of (self s) ++ [EvSleep 2]) k) ++ final /\
    (forall j, (j < k)%nat ->
       ~ observed_active E (self s)
           (trace s ++ concat (repeat (lookups_of (self s) ++ [EvSleep 2]) j)
                    ++ lookups_of (self s))) /\
    sleeps_of evs = repeat 2 k /\
    time_slept evs = 2 * Z.of_nat k /\
    time_slept evs <= 60 /\
    forallb is_lookup_or_sleep evs = true /\
    (((k < 30)%nat /\
      final = lookups_of (self s) /\
      observed_active E (self s) (trace (snd (_wait_for_files_active E s))) /\
      exists s', poll E sk = (Return true, s') /\
        _wait_for_files_active E s = (Return tt, snd (print LogBothActive s')))
     \/
     ((k < 30)%nat /\
      forallb is_lookup final = true /\
      exists e s', poll E sk = (Raise e, s') /\
        (exists h file_name, get_file E h file_name = inl e) /\
        _wait_for_files_active E s = (Raise e, s'))
     \/
     (k = 30%nat /\
      final = [] /\
      _wait_for_files_active E s =
        (Return tt, snd (print LogMayNotBeProcessed sk)))).
Proof.
  rewrite wait_for_files_active_eq.
  set (s0 := snd (print LogWaiting s)).
  assert (X0 : extends s s0 [] [LogWaiting]) by apply extends_print.
  destruct (wait_loop_run E 30 0 s0) as (k & sk & Hk & R & Hcases);
    [unfold max_wait_time, wait_interval; lia|].
  unfold max_wait_time, wait_interval in Hcases.
  destruct (rounds_extends E k 0 s0 sk R) as (evsr & logsr & Xr & Sr & Lr).
  destruct (rounds_trace E k 0 s0 sk R) as (Hselfk & Htracek & Hnot).
  change (self s0) with (self s) in Hselfk, Htracek, Hnot.
  change (trace s0) with (trace s) in Htracek, Hnot.
  unfold waiting_round, wait_interval in Htracek, Hnot.
  assert (Hevsr : evsr = concat (repeat (lookups_of (self s) ++ [EvSleep 2]) k)).
  { destruct Xr as (_ & Htr & _). change (trace s0) with (trace s) in Htr.
    rewrite Htracek in Htr. apply app_inv_head in Htr. symmetry. exact Htr. }
  pose proof (extends_trans _ _ _ _ _ _ _ X0 Xr) as X0r. simpl in X0r.
  unfold wait_interval in Sr.
  destruct Hcases as [(Hlt & s' & Hp & Hw) | [(Hlt & e & s' & Hp & Hw) | (Hge & Hw)]].
  - destruct (poll_answer E sk s' true Hp) as (Xp & Hobs).
    rewrite Hselfk in Xp, Hobs.
    assert (Lp : forallb is_lookup (lookups_of (self s)) = true).
    { unfold lookups_of. destruct (old_kuhp_file (self s)), (new_kuhp_file (self s));
        reflexivity. }
    pose proof (extends_trans _ _ _ _ _ _ _
                  (extends_trans _ _ _ _ _ _ _ X0r Xp)
                  (extends_print s' LogBothActive)) as X.
    rewrite app_nil_r in X.
    assert (S : sleeps_of (evsr ++ lookups_of (self s)) = repeat 2 k).
    { rewrite !sleeps_of_app, Sr, (lookups_no_sleep _ Lp).
      rewrite !app_nil_r. reflexivity. }
    exists k, sk. eexists; eexists. exists (lookups_of (self s)).
    split; [exact Hk|]. split; [exact R|].
    rewrite Hw. split; [exact X|]. split; [rewrite Hevsr; reflexivity|].
    split; [exact Hnot|]. split; [exact S|].
    rewrite (time_slept_repeat _ _ _ S).
    split; [reflexivity|]. split; [lia|]. split.
    { rewrite !forallb_app, Lr, (lookups_are_lookup_or_sleep _ Lp). reflexivity. }
    left. split; [lia|]. split; [reflexivity|]. split.
    { simpl. apply Hobs. reflexivity. }
    exists s'. split; [exact Hp | reflexivity].
  - destruct (poll_raise_calls E sk s' e Hp) as (final & Xp & Lp).
    pose proof (extends_trans _ _ _ _ _ _ _ X0r Xp) as X.
    assert (S : sleeps_of (evsr ++ final) = repeat 2 k).
    { rewrite !sleeps_of_app, Sr, (lookups_no_sleep _ Lp).
      rewrite !app_nil_r. reflexivity. }
    exists k, sk. eexists; eexists. exists final.
    split; [exact Hk|]. split; [exact R|].
    rewrite Hw. split; [exact X|]. split; [rewrite Hevsr; reflexivity|].
    split; [exact Hnot|]. split; [exact S|].
    rewrite (time_slept_repeat _ _ _ S).
    split; [reflexivity|]. split; [lia|]. split.
    { rewrite !forallb_app, Lr, (lookups_are_lookup_or_sleep _ Lp). reflexivity. }
    right; left. split; [lia|]. split; [exact Lp|].
    exists e, s'. split; [exact Hp|]. split; [|reflexivity].
    apply (poll_raise E sk). rewrite Hp. reflexivity.
  - pose proof (extends_trans _ _ _ _ _ _ _ X0r
                  (extends_print sk LogMayNotBeProcessed)) as X.
    assert (S : sleeps_of (evsr ++ []) = repeat 2 k).
    { rewrite app_nil_r. exact Sr. }
    exists k, sk. eexists; eexists. exists [].
    split; [exact Hk|]. split; [exact R|].
    rewrite Hw. split; [exact X|]. split; [rewrite Hevsr; reflexivity|].
    split; [exact Hnot|]. split; [exact S|].
    rewrite (time_slept_repeat _ _ _ S).
    split; [reflexivity|]. split; [lia|]. split.
    { rewrite app_nil_r. exact Lr. }
    right; right. split; [lia|]. split; reflexivity.
Qed.

(** C7, run: files that stay in PROCESSING are polled 30 times, 60
    time units are slept in steps of 2, and the method returns normally
    after printing the warning. *)
Example wait_for_files_active_timeout_run :
  let start := snd (load_documents (steady_env "ACTIVE" "jawaban") fresh) in
  let run := _wait_for_files_active (steady_env "PROCESSING" "jawaban") start in
  fst run = Return tt /\
  sleeps_of (trace (snd run)) = repeat 2 30 /\
  time_slept (trace (snd run)) = 60 /\
  last (stdout (snd run)) LogWaiting = LogMayNotBeProcessed.
Proof. vm_compute. repeat split. Qed.

(** C7, run: files that are ACTIVE at the first poll end the wait at
    once, without sleeping. *)
Example wait_for_files_active_ready_run :
  let run := _wait_for_files_active (steady_env "ACTIVE" "jawaban") loaded in
  fst run = Return tt /\
  sleeps_of (skipn (List.length (trace loaded)) (trace (snd run))) = [] /\
  last (stdout (snd run)) LogWaiting = LogBothActive.
Proof. vm_compute. repeat split. Qed.

(** Waiting never touches the analyzer's fields. *)
Lemma wait_for_files_active_self (E : Env) (s : St) :
  self (snd (_wait_for_files_active E s)) = self s.
Proof.
  rewrite wait_for_files_active_eq.
  destruct (wait_loop_run E 30 0 (snd (print LogWaiting s)))
    as (k & sk & _ & R & Hcases); [unfold max_wait_time, wait_interval; lia|].
  destruct (rounds_extends E k 0 _ sk R) as (evsr & logsr & (Hself & _) & _).
  simpl in Hself.
  destruct (poll_run E sk) as (evsp & (Hp & _) & _).
  destruct Hcases as [(_ & s' & P & ->) | [(_ & e & s' & P & ->) | (_ & ->)]];
    simpl; try rewrite P in Hp; simpl in Hp; congruence.
Qed.

(* ================================================================= *)
(** ** Loading the documents *)

(** C6. If either configured path does not exist, [load_documents]
    returns [False] and leaves [is_initialized] as it was (so it remains
    false on an analyzer that was not initialized).  When the old
    document is missing nothing at all is changed or uploaded.  When the
    old document exists and its upload succeeds but the new document is
    missing, the handle of the old document stays in [old_kuhp_file]:
    it is not rolled back. *)
Theorem load_documents_missing_path (E : Env) (s : St) :
  path_exists E (old_kuhp_path (config (self s))) = false \/
  path_exists E (new_kuhp_path (config (self s))) = false ->
  fst (load_documents E s) = Return false /\
  is_initialized (self (snd (load_documents E s))) = is_initialized (self s) /\
  (path_exists E (old_kuhp_path (config (self s))) = false ->
   self (snd (load_documents E s)) = self s /\
   trace (snd (load_documents E s)) = trace s) /\
  (forall f,
     path_exists E (old_kuhp_path (config (self s))) = true ->
     upload_file E (trace s) (old_kuhp_path (config (self s))) "KUHP Lama" = inr f ->
     old_kuhp_file (self (snd (load_documents E s))) = Some f /\
     new_kuhp_file (self (snd (load_documents E s))) = new_kuhp_file (self s)).
Proof.
  intros H. unfold load_documents, set_old_kuhp_file. unfold_py.
  destruct (path_exists E (old_kuhp_path (config (self s)))) eqn:Pold; simpl.
  - destruct H as [H|H]; [discriminate|].
    destruct (upload_file E (trace s) (old_kuhp_path (config (self s))) "KUHP Lama")
      as [e|f_old]; simpl.
    + repeat split; discriminate.
    + rewrite H. simpl. repeat split; try discriminate; congruence.
  - repeat split; discriminate.
Qed.

(** C6 at a concrete world: the old document exists, the new one does
    not. *)
Lemma load_documents_missing_path_witness :
  fst (load_documents new_missing_env fresh) = Return false /\
  is_initialized (self (snd (load_documents new_missing_env fresh))) =
    is_initialized (self fresh) /\
  (path_exists new_missing_env (old_kuhp_path (config (self fresh))) = false ->
   self (snd (load_documents new_missing_env fresh)) = self fresh /\
   trace (snd (load_documents new_missing_env fresh)) = trace fresh) /\
  (forall f,
     path_exists new_missing_env (old_kuhp_path (config (self fresh))) = true ->
     upload_file new_missing_env (trace fresh)
       (old_kuhp_path (config (self fresh))) "KUHP Lama" = inr f ->
     old_kuhp_file (self (snd (load_documents new_missing_env fresh))) = Some f /\
     new_kuhp_file (self (snd (load_documents new_missing_env fresh))) =
       new_kuhp_file (self fresh)).
Proof.
  apply (load_documents_missing_path new_missing_env fresh).
  right. reflexivity.
Defined.

(** C6, run: after the failed load the analyzer is not initialized, and
    holds the old document's handle but no new one. *)
Example load_documents_missing_run :
  let run := load_documents new_missing_env fresh in
  fst run = Return false /\
  is_initialized (self (snd run)) = false /\
  old_kuhp_file (self (snd run)) = Some (uploaded "KUHP Lama") /\
  new_kuhp_file (self (snd run)) = None /\
  trace (snd run) = [EvUpload "documents/kuhp_old.pdf" "KUHP Lama"].
Proof. vm_compute. repeat split. Qed.

(** How [load_documents] changes the analyzer's fields: handles are
    only ever set, and [is_initialized] is only set with both handles
    in place. *)
Lemma load_documents_self (E : Env) (s : St) :
  (is_set (old_kuhp_file (self s)) = true ->
   is_set (old_kuhp_file (self (snd (load_documents E s)))) = true) /\
  (is_set (new_kuhp_file (self s)) = true ->
   is_set (new_kuhp_file (self (snd (load_documents E s)))) = true) /\
  (is_initialized (self (snd (load_documents E s))) = true ->
   is_initialized (self s) = true \/
   (is_set (old_kuhp_file (self (snd (load_documents E s)))) = true /\
    is_set (new_kuhp_file (self (snd (load_documents E s)))) = true)).
Proof.
  unfold load_documents, set_old_kuhp_file, set_new_kuhp_file, set_is_initialized.
  unfold_py.
  destruct (path_exists E (old_kuhp_path (config (self s)))); simpl; [|tauto].
  destruct (upload_file E (trace s) (old_kuhp_path (config (self s))) "KUHP Lama")
    as [e|f_old]; simpl; [tauto|].
  destruct (path_exists E (new_kuhp_path (config (self s)))); simpl; [|tauto].
  match goal with
  | |- context [upload_file E ?h ?p ?d] =>
      destruct (upload_file E h p d) as [e|f_new]; simpl; [tauto|]
  end.
  match goal with
  | |- context [_wait_for_files_active E ?st] =>
      pose proof (wait_for_files_active_self E st) as W;
      destruct (_wait_for_files_active E st) as [[[]|e] s4]; simpl in *
  end; rewrite W; simpl; tauto.
Qed.

(* ================================================================= *)
(** ** Analyzer states that can arise *)

(** Every call of [analyze_differences] leaves the analyzer's fields as
    they were and only adds to the trace and to the output. *)
Lemma analyze_differences_extends (E : Env) (query : string) (s : St) :
  exists evs logs, extends s (snd (analyze_differences E query s)) evs logs.
Proof.
  unfold analyze_differences. unfold_py.
  destruct (is_initialized (self s)); simpl;
    [| eexists; eexists; close_extends ].
  destruct (negb (is_set (old_kuhp_file (self s))) ||
            negb (is_set (new_kuhp_file (self s))))%bool; simpl;
    [ eexists; eexists; close_extends |].
  destruct (_check_query_relevance E query); simpl;
    [| eexists; eexists; close_extends ].
  match goal with
  | |- context [_generate_response_with_files E ?p ?st] =>
      destruct (generate_loop_run E p (range max_retries) initial_retry_delay st)
        as (evs & logs & X & _);
      fold (_generate_response_with_files E p st) in X;
      assert (X0 : extends s st [] [LogStartingAnalysis query])
        by (apply extends_print);
      pose proof (extends_trans _ _ _ _ _ _ _ X0 X) as X1;
      destruct (_generate_response_with_files E p st) as [[v|e] s2]; simpl in *
  end.
  - eexists; eexists.
    apply (extends_trans _ _ _ _ _ _ _ X1 (extends_print s2 LogAnalysisCompleted)).
  - eexists; eexists.
    apply (extends_trans _ _ _ _ _ _ _ X1 (extends_print s2 (LogAnalysisFailed e))).
Qed.

(** An initialized analyzer holds both handles. *)
Lemma initialized_has_handles (E : Env) (s : St) :
  reachable E s ->
  is_initialized (self s) = true ->
  is_set (old_kuhp_file (self s)) = true /\
  is_set (new_kuhp_file (self s)) = true.
Proof.
  induction 1 as [tr out | s R IH | s query R IH]; intros Hinit.
  - discriminate.
  - destruct (load_documents_self E s) as (Hold & Hnew & Hini).
    destruct (Hini Hinit) as [Hbefore | Hboth]; [|exact Hboth].
    destruct (IH Hbefore) as [A B]. split; [apply Hold, A | apply Hnew, B].
  - destruct (analyze_differences_extends E query s) as (evs & logs & Hself & _).
    rewrite Hself in *. apply IH, Hinit.
Qed.

(* ================================================================= *)
(** ** Claims about [analyze_differences] *)

(** C3. On an initialized analyzer, a query that the relevance filter
    rejects is answered with exactly the fixed guidance text,
    [is_relevant = False] and [files_used = 0]; the only effect is one
    printed line, so no external call at all is made: no generation
    call and no file look-up. *)
Theorem irrelevant_query_short_circuit (E : Env) (query : string) (s : St) :
  reachable E s ->
  is_initialized (self s) = true ->
  _check_query_relevance E query = false ->
  analyze_differences E query s =
    (Return {| response := Some (_get_irrelevant_response "");
               is_relevant := false;
               files_used := 0 |},
     snd (print (LogStartingAnalysis query) s)) /\
  trace (snd (analyze_differences E query s)) = trace s.
Proof.
  intros R Hinit Hrel.
  destruct (initialized_has_handles E s R Hinit) as [Hold Hnew].
  unfold analyze_differences. unfold_py.
  rewrite Hinit, Hold, Hnew, Hrel. simpl. split; reflexivity.
Qed.

(** C3 at a concrete run: an off-domain query on the loaded analyzer. *)
Lemma irrelevant_query_short_circuit_witness :
  analyze_differences (steady_env "ACTIVE" "jawaban") "Bagaimana cuaca hari ini?" loaded =
    (Return {| response := Some (_get_irrelevant_response "");
               is_relevant := false;
               files_used := 0 |},
     snd (print (LogStartingAnalysis "Bagaimana cuaca hari ini?") loaded)) /\
  trace (snd (analyze_differences (steady_env "ACTIVE" "jawaban")
                "Bagaimana cuaca hari ini?" loaded)) = trace loaded.
Proof.
  apply (irrelevant_query_short_circuit (steady_env "ACTIVE" "jawaban")
           "Bagaimana cuaca hari ini?" loaded).
  - unfold loaded. apply reach_load. apply reach_new.
  - reflexivity.
  - reflexivity.
Defined.

(** C8. If [is_initialized] is false or either handle is [None], every
    query fails with one of the two not-initialized exceptions, and no
    external call is made. *)
Theorem uninitialized_query_fails (E : Env) (query : string) (s : St) :
  is_initialized (self s) = false \/
  old_kuhp_file (self s) = None \/ new_kuhp_file (self s) = None ->
  exists e,
    NotInitialized e /\
    analyze_differences E query s =
      (Raise e, snd (print (LogAnalysisFailed e) s)) /\
    trace (snd (analyze_differences E query s)) = trace s.
Proof.
  intros H. unfold analyze_differences, NotInitialized. unfold_py.
  destruct (is_initialized (self s)); simpl.
  - destruct H as [H | [H | H]]; [discriminate | |].
    + rewrite H. simpl. eexists. split; [right; reflexivity|]. split; reflexivity.
    + rewrite H. rewrite orb_true_r.
      eexists. split; [right; reflexivity|]. split; reflexivity.
  - eexists. split; [left; reflexivity|]. split; reflexivity.
Qed.

(** C8 at a concrete state: initialized flag set, new handle missing. *)
Lemma uninitialized_query_fails_witness :
  exists e,
    NotInitialized e /\
    analyze_differences failing_env "Apa sanksi pencurian?" half_loaded =
      (Raise e, snd (print (LogAnalysisFailed e) half_loaded)) /\
    trace (snd (analyze_differences failing_env "Apa sanksi pencurian?" half_loaded)) =
      trace half_loaded.
Proof.
  apply (uninitialized_query_fails failing_env "Apa sanksi pencurian?" half_loaded).
  right. right. reflexivity.
Defined.

(** C10. The initialization checks come before the relevance filter:
    on an analyzer whose [is_initialized] is false, every query,
    whatever the relevance filter says about it, raises the
    not-initialized exception; nothing is returned, so the guidance
    text for off-domain queries never comes out of such an analyzer. *)
Theorem uninitialized_never_guidance (E : Env) (query : string) (s : St) :
  is_initialized (self s) = false ->
  fst (analyze_differences E query s) =
    Raise (Exception "Gemini belum diinisialisasi") /\
  NotInitialized (Exception "Gemini belum diinisialisasi") /\
  (forall result, fst (analyze_differences E query s) <> Return result) /\
  trace (snd (analyze_differences E query s)) = trace s.
Proof.
  intros H. unfold analyze_differences, NotInitialized. unfold_py.
  rewrite H. simpl.
  split; [reflexivity|]. split; [left; reflexivity|].
  split; [discriminate | reflexivity].
Qed.

(** C10 at a concrete run: an off-domain query on a fresh analyzer. *)
Lemma uninitialized_never_guidance_witness :
  _check_query_relevance (steady_env "ACTIVE" "jawaban") "Bagaimana cuaca hari ini?" = false /\
  fst (analyze_differences (steady_env "ACTIVE" "jawaban")
         "Bagaimana cuaca hari ini?" fresh) =
    Raise (Exception "Gemini belum diinisialisasi") /\
  NotInitialized (Exception "Gemini belum diinisialisasi") /\
  (forall result,
     fst (analyze_differences (steady_env "ACTIVE" "jawaban")
            "Bagaimana cuaca hari ini?" fresh) <> Return result) /\
  trace (snd (analyze_differences (steady_env "ACTIVE" "jawaban")
                "Bagaimana cuaca hari ini?" fresh)) = trace fresh.
Proof.
  split; [reflexivity|].
  apply (uninitialized_never_guidance (steady_env "ACTIVE" "jawaban")
           "Bagaimana cuaca hari ini?" fresh).
  reflexivity.
Defined.

(** [analyze_differences] on an initialized analyzer and a relevant
    query: the outcome of the generation routine decides. *)
Lemma analyze_differences_relevant (E : Env) (query : string) (s : St) :
  is_initialized (self s) = true ->
  is_set (old_kuhp_file (self s)) = true ->
  is_set (new_kuhp_file (self s)) = true ->
  _check_query_relevance E query = true ->
  analyze_differences E query s =
  match _generate_response_with_files E (_build_analysis_prompt query)
          (snd (print (LogStartingAnalysis query) s)) with
  | (Return generated, s2) =>
      (Return {| response := generated; is_relevant := true; files_used := 2 |},
       snd (print LogAnalysisCompleted s2))
  | (Raise e, s2) => (Raise e, snd (print (LogAnalysisFailed e) s2))
  end.
Proof.
  intros Hinit Hold Hnew Hrel.
  unfold analyze_differences. unfold_py.
  rewrite Hinit, Hold, Hnew, Hrel. simpl.
  match goal with
  | |- context [_generate_response_with_files E ?p ?st] =>
      destruct (_generate_response_with_files E p st) as [[v|e] s2]
  end; reflexivity.
Qed.

(** C9 fails as written: with a generation service that is down, the
    routine raises the service's exception after three attempts and
    [analyze_differences] raises that very exception. *)
Lemma analyze_surfaces_underlying_error :
  fst (analyze_differences failing_env "Apa sanksi pencurian?" loaded) =
    Raise unavailable /\
  ~ surfaces_generic_error failing_env "Apa sanksi pencurian?" loaded.
Proof.
  assert (A : fst (analyze_differences failing_env "Apa sanksi pencurian?" loaded) =
              Raise unavailable) by (vm_compute; reflexivity).
  split; [exact A|].
  intros C. destruct (C unavailable) as (g & Hg & Hne).
  - vm_compute. reflexivity.
  - rewrite A in Hg. injection Hg as Hg. apply Hne. symmetry. exact Hg.
Qed.

(** C9, amended. When the generation routine called by
    [analyze_differences] raises [e] (after its last attempt), then
    [analyze_differences] prints its "Analysis failed" line for [e] and
    raises [e] itself, unchanged. *)
Theorem analyze_reraises_generation_error (E : Env) (query : string) (s : St)
    (e : exn) :
  is_initialized (self s) = true ->
  is_set (old_kuhp_file (self s)) = true ->
  is_set (new_kuhp_file (self s)) = true ->
  _check_query_relevance E query = true ->
  fst (_generate_response_with_files E (_build_analysis_prompt query)
         (snd (print (LogStartingAnalysis query) s))) = Raise e ->
  analyze_differences E query s =
    (Raise e,
     snd (print (LogAnalysisFailed e)
            (snd (_generate_response_with_files E (_build_analysis_prompt query)
                    (snd (print (LogStartingAnalysis query) s)))))).
Proof.
  intros Hinit Hold Hnew Hrel Hgen.
  rewrite analyze_differences_relevant by assumption.
  destruct (_generate_response_with_files E (_build_analysis_prompt query)
              (snd (print (LogStartingAnalysis query) s))) as [[v|e'] s2];
    simpl in Hgen; [discriminate|].
  injection Hgen as ->. reflexivity.
Qed.

(** C9, amended, at a concrete run: the generation service is down. *)
Lemma analyze_reraises_generation_error_witness :
  analyze_differences failing_env "Apa sanksi pencurian?" loaded =
    (Raise unavailable,
     snd (print (LogAnalysisFailed unavailable)
            (snd (_generate_response_with_files failing_env
                    (_build_analysis_prompt "Apa sanksi pencurian?")
                    (snd (print (LogStartingAnalysis "Apa sanksi pencurian?") loaded)))))).
Proof.
  apply (analyze_reraises_generation_error failing_env "Apa sanksi pencurian?"
           loaded unavailable); vm_compute; reflexivity.
Defined.

(** The scenario of the specification: both documents ACTIVE and an
    in-domain query give one generation call with a three-part payload
    and a result with [is_relevant = True] and [files_used = 2]. *)
Example scenario_relevant_query :
  let E := steady_env "ACTIVE" "jawaban" in
  let query := "Apa perbedaan Pasal 351 tentang penganiayaan?" in
  let run := analyze_differences E query loaded in
  _check_query_relevance E query = true /\
  fst run = Return {| response := Some "jawaban"; is_relevant := true; files_used := 2 |} /\
  filter is_generate (trace (snd run)) =
    [EvGenerate [PFile (Some (uploaded "KUHP Lama"));
                 PFile (Some (uploaded "KUHP Baru"));
                 PText (_build_analysis_prompt query)]].
Proof. vm_compute. repeat split. Qed.

(* ================================================================= *)
(** ** Further properties: waiting *)

Lemma time_slept_app (l1 l2 : list Event) :
  time_slept (l1 ++ l2) = time_slept l1 + time_slept l2.
Proof.
  unfold time_slept. rewrite sleeps_of_app.
  induction (sleeps_of l1) as [|d l IH]; simpl; [reflexivity | rewrite IH; lia].
Qed.

Lemma time_slept_lookups (evs : list Event) :
  forallb is_lookup evs = true -> time_slept evs = 0.
Proof. intros L. unfold time_slept. rewrite (lookups_no_sleep _ L). reflexivity. Qed.

(** Everything one call of [_wait_for_files_active] can do. *)
Lemma wait_for_files_active_run (E : Env) (s : St) :
  exists evs logs,
    extends s (snd (_wait_for_files_active E s)) evs logs /\
    forallb is_lookup_or_sleep evs = true /\
    0 <= time_slept evs <= 60 /\
    (fst (_wait_for_files_active E s) = Return tt ->
     (observed_active E (self s) (trace (snd (_wait_for_files_active E s))) /\
      time_slept evs < 60 /\ last logs LogWaiting = LogBothActive)
     \/
     (time_slept evs = 60 /\ last logs LogWaiting = LogMayNotBeProcessed)) /\
    (forall e, fst (_wait_for_files_active E s) = Raise e ->
               exists h file_name, get_file E h file_name = inl e).
Proof.
  rewrite wait_for_files_active_eq.
  set (s0 := snd (print LogWaiting s)).
  assert (X0 : extends s s0 [] [LogWaiting]) by apply extends_print.
  destruct (wait_loop_run E 30 0 s0) as (k & sk & Hk & R & Hcases);
    [unfold max_wait_time, wait_interval; lia|].
  unfold max_wait_time, wait_interval in Hcases.
  destruct (rounds_extends E k 0 s0 sk R) as (evsr & logsr & Xr & Sr & Lr).
  pose proof (extends_trans _ _ _ _ _ _ _ X0 Xr) as X0r. simpl in X0r.
  unfold wait_interval in Sr.
  pose proof (time_slept_repeat _ _ _ Sr) as Tr.
  destruct (poll_run E sk) as (evsp & Xp & Lp & Op).
  destruct Hcases as [(Hlt & s' & Hp & Hw) | [(Hlt & e & s' & Hp & Hw) | (Hge & Hw)]];
    rewrite Hw; simpl.
  - rewrite Hp in Xp, Op. simpl in Xp, Op.
    pose proof (extends_trans _ _ _ _ _ _ _
                  (extends_trans _ _ _ _ _ _ _ X0r Xp)
                  (extends_print s' LogBothActive)) as X.
    eexists; eexists. split; [exact X|].
    rewrite !forallb_app, Lr, (lookups_are_lookup_or_sleep _ Lp).
    rewrite !time_slept_app, Tr, (time_slept_lookups _ Lp).
    change (time_slept []) with 0.
    split; [reflexivity|]. split; [lia|]. split; [|discriminate].
    intros _. left. split; [|split; [lia | apply last_last]].
    destruct X0r as (Hself & _). rewrite <- Hself. apply Op. reflexivity.
  - rewrite Hp in Xp. simpl in Xp.
    pose proof (extends_trans _ _ _ _ _ _ _ X0r Xp) as X.
    eexists; eexists. split; [exact X|].
    rewrite !forallb_app, Lr, (lookups_are_lookup_or_sleep _ Lp).
    rewrite !time_slept_app, Tr, (time_slept_lookups _ Lp).
    split; [reflexivity|]. split; [lia|]. split; [discriminate|].
    intros e' He'. injection He' as <-.
    apply (poll_raise E sk). rewrite Hp. reflexivity.
  - pose proof (extends_trans _ _ _ _ _ _ _ X0r
                  (extends_print sk LogMayNotBeProcessed)) as X.
    eexists; eexists. split; [exact X|].
    rewrite !forallb_app, Lr, !time_slept_app, Tr.
    change (time_slept []) with 0.
    split; [reflexivity|]. split; [lia|]. split; [|discriminate].
    intros _. right. split; [lia | apply last_last].
Qed.

Lemma wait_returns_when_answered (E : Env) (s : St) :
  lookups_answered E -> fst (_wait_for_files_active E s) = Return tt.
Proof.
  intros A.
  destruct (wait_for_files_active_run E s) as (evs & logs & _ & _ & _ & _ & Hr).
  destruct (fst (_wait_for_files_active E s)) as [[]|e]; [reflexivity|].
  destruct (Hr e eq_refl) as (h & nm & G).
  destruct (A h nm) as (info & Hinfo). congruence.
Qed.

(** X1. When the file store answers every look-up, waiting never
    raises: it returns either right after reading ACTIVE for both
    documents, having slept less than 60, or after sleeping exactly 60
    with the warning printed. *)
Theorem wait_returns_active_or_timeout (E : Env) (s : St) :
  lookups_answered E ->
  exists evs logs,
    extends s (snd (_wait_for_files_active E s)) evs logs /\
    fst (_wait_for_files_active E s) = Return tt /\
    ((observed_active E (self s) (trace (snd (_wait_for_files_active E s))) /\
      time_slept evs < 60 /\ last logs LogWaiting = LogBothActive)
     \/
     (time_slept evs = 60 /\ last logs LogWaiting = LogMayNotBeProcessed)).
Proof.
  intros A.
  destruct (wait_for_files_active_run E s) as (evs & logs & X & _ & _ & Hc & _).
  pose proof (wait_returns_when_answered E s A) as R.
  exists evs, logs. split; [exact X|]. split; [exact R|]. apply Hc, R.
Qed.

Lemma steady_env_answers (state reply : string) :
  lookups_answered (steady_env state reply).
Proof. intros h nm. eexists. reflexivity. Qed.

(** X1 at a concrete world: files stuck in PROCESSING. *)
Lemma wait_returns_active_or_timeout_witness :
  exists evs logs,
    extends loaded
      (snd (_wait_for_files_active (steady_env "PROCESSING" "jawaban") loaded))
      evs logs /\
    fst (_wait_for_files_active (steady_env "PROCESSING" "jawaban") loaded) =
      Return tt /\
    ((observed_active (steady_env "PROCESSING" "jawaban") (self loaded)
        (trace (snd (_wait_for_files_active
                       (steady_env "PROCESSING" "jawaban") loaded))) /\
      time_slept evs < 60 /\ last logs LogWaiting = LogBothActive)
     \/
     (time_slept evs = 60 /\ last logs LogWaiting = LogMayNotBeProcessed)).
Proof.
  apply (wait_returns_active_or_timeout (steady_env "PROCESSING" "jawaban") loaded).
  apply steady_env_answers.
Defined.

Lemma observed_active_handles (E : Env) (a : KUHPAnalyzer) (h : list Event) :
  observed_active E a h ->
  exists o n, old_kuhp_file a = Some o /\ new_kuhp_file a = Some n /\
              ~ never_active E (name o) /\ ~ never_active E (name n).
Proof.
  intros (h0 & o & n & io & inn & Ho & Hn & _ & Go & Ao & Gn & An).
  exists o, n. split; [exact Ho|]. split; [exact Hn|]. split.
  - intros N. destruct (N h0) as (i & Gi & Ni). congruence.
  - intros N. destruct (N (h0 ++ [EvGetFile (name o)])) as (i & Gi & Ni). congruence.
Qed.

(** X2. Waiting cannot end early unless both handles are set and both
    files get reported ACTIVE: if a handle is [None], or the file store
    never reports one of the two files ACTIVE, then every call that
    returns has slept the full 60 time units. *)
Theorem wait_full_budget_when_stuck (E : Env) (s : St) :
  old_kuhp_file (self s) = None \/ new_kuhp_file (self s) = None \/
  (exists o, old_kuhp_file (self s) = Some o /\ never_active E (name o)) \/
  (exists n, new_kuhp_file (self s) = Some n /\ never_active E (name n)) ->
  fst (_wait_for_files_active E s) = Return tt ->
  time_slept (skipn (List.length (trace s))
                (trace (snd (_wait_for_files_active E s)))) = 60.
Proof.
  intros Hstuck R.
  destruct (wait_for_files_active_run E s)
    as (evs & logs & (_ & Htrace & _) & _ & _ & Hc & _).
  rewrite Htrace, skipn_app, skipn_all, Nat.sub_diag. simpl.
  destruct (Hc R) as [(Obs & _) | (T & _)]; [|exact T].
  exfalso. apply observed_active_handles in Obs.
  destruct Obs as (o & n & Ho & Hn & No & Nn).
  destruct Hstuck as [H | [H | [(o' & H & N) | (n' & H & N)]]]; congruence.
Qed.

(** X2 at a concrete state: a fresh analyzer has no handles. *)
Lemma wait_full_budget_when_stuck_witness :
  time_slept (skipn (List.length (trace fresh))
                (trace (snd (_wait_for_files_active
                               (steady_env "ACTIVE" "jawaban") fresh)))) = 60.
Proof.
  apply (wait_full_budget_when_stuck (steady_env "ACTIVE" "jawaban") fresh).
  - left. reflexivity.
  - vm_compute. reflexivity.
Defined.

(* ================================================================= *)
(** ** Further properties: loading *)

(** X3. [load_documents] never raises: whatever the file system and the
    remote services do, it returns [True] or [False]. *)
Theorem load_documents_never_raises (E : Env) (s : St) :
  exists b, fst (load_documents E s) = Return b.
Proof.
  unfold_load.
  destruct (path_exists E (old_kuhp_path (config (self s)))); simpl;
    [| eexists; reflexivity].
  destruct (upload_file E (trace s) (old_kuhp_path (config (self s))) "KUHP Lama")
    as [e|f_old]; simpl; [eexists; reflexivity|].
  destruct (path_exists E (new_kuhp_path (config (self s)))); simpl;
    [| eexists; reflexivity].
  match goal with
  | |- context [upload_file E ?h ?p ?d] =>
      destruct (upload_file E h p d) as [e|f_new]; simpl; [eexists; reflexivity|]
  end.
  match goal with
  | |- context [_wait_for_files_active E ?st] =>
      destruct (_wait_for_files_active E st) as [[[]|e] s4]; simpl
  end; eexists; reflexivity.
Qed.

(** X4. When [load_documents] returns [True], both paths exist, both
    uploads were made (old first, then new) and were accepted, the two
    handles returned by the file store are the analyzer's handles,
    [is_initialized] is set, and after the uploads only look-ups and
    sleeps of at most 60 in total happened. *)
Theorem load_documents_success (E : Env) (s : St) :
  fst (load_documents E s) = Return true ->
  let old_path := old_kuhp_path (config (self s)) in
  let new_path := new_kuhp_path (config (self s)) in
  path_exists E old_path = true /\ path_exists E new_path = true /\
  exists f_old f_new rest,
    upload_file E (trace s) old_path "KUHP Lama" = inr f_old /\
    upload_file E (trace s ++ [EvUpload old_path "KUHP Lama"]) new_path "KUHP Baru"
      = inr f_new /\
    self (snd (load_documents E s)) =
      {| config := config (self s);
         old_kuhp_file := Some f_old;
         new_kuhp_file := Some f_new;
         is_initialized := true |} /\
    trace (snd (load_documents E s)) =
      trace s ++ [EvUpload old_path "KUHP Lama"; EvUpload new_path "KUHP Baru"] ++ rest /\
    forallb is_lookup_or_sleep rest = true /\
    time_slept rest <= 60.
Proof.
  unfold_load.
  destruct (path_exists E (old_kuhp_path (config (self s)))); simpl;
    [| discriminate].
  destruct (upload_file E (trace s) (old_kuhp_path (config (self s))) "KUHP Lama")
    as [e|f_old]; simpl; [discriminate|].
  destruct (path_exists E (new_kuhp_path (config (self s)))); simpl;
    [| discriminate].
  match goal with
  | |- context [upload_file E ?h ?p ?d] =>
      destruct (upload_file E h p d) as [e|f_new]; simpl; [discriminate|]
  end.
  match goal with
  | |- context [_wait_for_files_active E ?st] =>
      destruct (wait_for_files_active_run E st)
        as (rest & logs & (Hself & Htrace & _) & L & T & _);
      destruct (_wait_for_files_active E st) as [[[]|e] s4]; simpl in *
  end; [| discriminate].
  intros _. split; [reflexivity|]. split; [reflexivity|].
  exists f_old, f_new, rest. rewrite Hself, Htrace, <- !app_assoc. simpl.
  repeat split; try assumption. lia.
Qed.

(** X4 at a concrete world. *)
Lemma load_documents_success_witness :
  is_initialized (self (snd (load_documents (steady_env "ACTIVE" "jawaban") fresh)))
    = true.
Proof.
  destruct (load_documents_success (steady_env "ACTIVE" "jawaban") fresh)
    as (_ & _ & f_old & f_new & rest & _ & _ & Hself & _).
  - vm_compute. reflexivity.
  - rewrite Hself. reflexivity.
Defined.

(** X5. Loading does not depend on the files becoming ACTIVE: if both
    paths exist, the file store accepts uploads and answers look-ups,
    [load_documents] returns [True] and sets [is_initialized], whatever
    states the look-ups report. *)
Theorem load_documents_succeeds_without_active (E : Env) (s : St) :
  path_exists E (old_kuhp_path (config (self s))) = true ->
  path_exists E (new_kuhp_path (config (self s))) = true ->
  uploads_succeed E ->
  lookups_answered E ->
  fst (load_documents E s) = Return true /\
  is_initialized (self (snd (load_documents E s))) = true.
Proof.
  intros Pold Pnew U A.
  unfold_load. rewrite Pold. simpl.
  destruct (U (trace s) (old_kuhp_path (config (self s))) "KUHP Lama")
    as (f_old & ->). simpl.
  rewrite Pnew. simpl.
  match goal with
  | |- context [upload_file E ?h ?p ?d] =>
      destruct (U h p d) as (f_new & ->); simpl
  end.
  match goal with
  | |- context [_wait_for_files_active E ?st] =>
      pose proof (wait_returns_when_answered E st A) as R;
      pose proof (wait_for_files_active_self E st) as W;
      destruct (_wait_for_files_active E st) as [[[]|e] s4]; simpl in *
  end; [| discriminate].
  split; reflexivity.
Qed.

(** X5 at a concrete world: the files stay in PROCESSING for ever. *)
Lemma load_documents_succeeds_without_active_witness :
  fst (load_documents (steady_env "PROCESSING" "jawaban") fresh) = Return true /\
  is_initialized
    (self (snd (load_documents (steady_env "PROCESSING" "jawaban") fresh))) = true.
Proof.
  apply (load_documents_succeeds_without_active
           (steady_env "PROCESSING" "jawaban") fresh).
  - reflexivity.
  - reflexivity.
  - intros h p d. eexists. reflexivity.
  - apply steady_env_answers.
Defined.

(** X6. When the upload of the old document raises, [load_documents]
    swallows the exception: it returns [False], prints the exception,
    leaves every field of the analyzer as it was, and neither uploads
    the new document nor looks anything up. *)
Theorem load_documents_old_upload_fails (E : Env) (s : St) (e : exn) :
  path_exists E (old_kuhp_path (config (self s))) = true ->
  upload_file E (trace s) (old_kuhp_path (config (self s))) "KUHP Lama" = inl e ->
  load_documents E s =
    (Return false,
     {| self := self s;
        trace := trace s ++ [EvUpload (old_kuhp_path (config (self s))) "KUHP Lama"];
        stdout := stdout s ++ [LogUploadingDocuments;
                               LogUploading (old_kuhp_path (config (self s)));
                               LogLoadFailed e] |}).
Proof.
  intros Pold U. unfold_load. rewrite Pold. simpl. rewrite U. simpl.
  rewrite <- !app_assoc. reflexivity.
Qed.

(** X6 at a concrete world: the file store rejects uploads. *)
Lemma load_documents_old_upload_fails_witness :
  load_documents upload_failing_env fresh =
    (Return false,
     {| self := self fresh;
        trace := trace fresh ++
                 [EvUpload (old_kuhp_path (config (self fresh))) "KUHP Lama"];
        stdout := stdout fresh ++
                  [LogUploadingDocuments;
                   LogUploading (old_kuhp_path (config (self fresh)));
                   LogLoadFailed quota] |}).
Proof.
  apply (load_documents_old_upload_fails upload_failing_env fresh quota);
    reflexivity.
Defined.

(** X7. When the old document is uploaded and the upload of the new one
    raises, [load_documents] returns [False] and prints the exception;
    the old handle stays in [old_kuhp_file], while [new_kuhp_file] and
    [is_initialized] are as before, and nothing is looked up. *)
Theorem load_documents_new_upload_fails (E : Env) (s : St) (f_old : File) (e : exn) :
  path_exists E (old_kuhp_path (config (self s))) = true ->
  path_exists E (new_kuhp_path (config (self s))) = true ->
  upload_file E (trace s) (old_kuhp_path (config (self s))) "KUHP Lama" = inr f_old ->
  upload_file E (trace s ++ [EvUpload (old_kuhp_path (config (self s))) "KUHP Lama"])
    (new_kuhp_path (config (self s))) "KUHP Baru" = inl e ->
  fst (load_documents E s) = Return false /\
  self (snd (load_documents E s)) =
    {| config := config (self s);
       old_kuhp_file := Some f_old;
       new_kuhp_file := new_kuhp_file (self s);
       is_initialized := is_initialized (self s) |} /\
  trace (snd (load_documents E s)) =
    trace s ++ [EvUpload (old_kuhp_path (config (self s))) "KUHP Lama";
                EvUpload (new_kuhp_path (config (self s))) "KUHP Baru"] /\
  last (stdout (snd (load_documents E s))) LogWaiting = LogLoadFailed e.
Proof.
  intros Pold Pnew Uold Unew. unfold_load.
  rewrite Pold. simpl. rewrite Uold. simpl. rewrite Pnew. simpl.
  rewrite Unew. simpl.
  split; [reflexivity|]. split; [reflexivity|].
  split; [rewrite <- !app_assoc; reflexivity | apply last_last].
Qed.

(** Only the old upload is accepted in this world. *)
Lemma load_documents_new_upload_fails_witness :
  let E := {| str_lower := ascii_lower;
              path_exists := fun _ => true;
              upload_file := fun h _ display =>
                match h with [] => inr (uploaded display) | _ => inl quota end;
              get_file := fun _ _ => inr {| state_name := "ACTIVE" |};
              generate_content := fun _ _ => inr {| text := "jawaban" |} |} in
  fst (load_documents E fresh) = Return false /\
  self (snd (load_documents E fresh)) =
    {| config := config (self fresh);
       old_kuhp_file := Some (uploaded "KUHP Lama");
       new_kuhp_file := new_kuhp_file (self fresh);
       is_initialized := is_initialized (self fresh) |} /\
  trace (snd (load_documents E fresh)) =
    trace fresh ++ [EvUpload (old_kuhp_path (config (self fresh))) "KUHP Lama";
                    EvUpload (new_kuhp_path (config (self fresh))) "KUHP Baru"] /\
  last (stdout (snd (load_documents E fresh))) LogWaiting = LogLoadFailed quota.
Proof.
  intros E.
  apply (load_documents_new_upload_fails E fresh (uploaded "KUHP Lama") quota);
    reflexivity.
Defined.

(* ================================================================= *)
(** ** Further properties: generation and analysis *)

Lemma count_lookup_app (l1 l2 : list Event) :
  count_lookup (l1 ++ l2) = (count_lookup l1 + count_lookup l2)%nat.
Proof. unfold count_lookup. rewrite filter_app, length_app. reflexivity. Qed.

Lemma count_upload_app (l1 l2 : list Event) :
  count_upload (l1 ++ l2) = (count_upload l1 + count_upload l2)%nat.
Proof. unfold count_upload. rewrite filter_app, length_app. reflexivity. Qed.

(** The external calls of one attempt: at most two look-ups and one
    generation call, no upload, no sleep. *)
Lemma attempt_body_calls (E : Env) (prompt : string) (attempt : Z) (s : St) :
  exists evs logs,
    extends s (snd (attempt_body E prompt attempt s)) evs logs /\
    (count_lookup evs <= 2)%nat /\ (count_generate evs <= 1)%nat /\
    count_upload evs = 0%nat /\ time_slept evs = 0.
Proof.
  unfold attempt_body, _verify_files_ready. unfold_py.
  destruct (old_kuhp_file (self s)) as [o|]; simpl;
    [| eexists; eexists; split; [close_extends | cbv; repeat split; lia] ].
  destruct (get_file E (trace s) (name o)) as [e|io]; simpl;
    [ eexists; eexists; split; [close_extends | cbv; repeat split; lia] |].
  destruct (new_kuhp_file (self s)) as [n|]; simpl;
    [| eexists; eexists; split; [close_extends | cbv; repeat split; lia] ].
  destruct (get_file E (trace s ++ [EvGetFile (name o)]) (name n)) as [e|inn]; simpl;
    [ eexists; eexists; split; [close_extends | cbv; repeat split; lia] |].
  destruct (String.eqb (state_name io) "ACTIVE"); simpl;
    [| eexists; eexists; split; [close_extends | cbv; repeat split; lia] ].
  destruct (String.eqb (state_name inn) "ACTIVE"); simpl;
    [| eexists; eexists; split; [close_extends | cbv; repeat split; lia] ].
  match goal with
  | |- context [generate_content E ?h ?c] =>
      destruct (generate_content E h c) as [e|resp]; simpl;
        [| destruct (truthy (text resp)); simpl]
  end; eexists; eexists; (split; [close_extends | cbv; repeat split; lia]).
Qed.

(** The external calls of the whole retrying routine. *)
Lemma generate_calls (E : Env) (prompt : string) (s : St) :
  exists evs logs,
    extends s (snd (_generate_response_with_files E prompt s)) evs logs /\
    (count_lookup evs <= 6)%nat /\ (count_generate evs <= 3)%nat /\
    count_upload evs = 0%nat /\ 0 <= time_slept evs <= 6.
Proof.
  rewrite generate_unrolled.
  destruct (attempt_body_calls E prompt 0 s) as (evs1 & logs1 & X1 & L1 & G1 & U1 & T1).
  destruct (attempt_body E prompt 0 s) as [[t|e1] s1]; simpl in X1.
  { exists evs1, logs1. split; [exact X1|]. repeat split; lia. }
  pose proof (extends_trans _ _ _ _ _ _ _ X1 (extends_backoff 0 e1 2 s1)) as X1'.
  destruct (attempt_body_calls E prompt 1 (backoff 0 e1 2 s1))
    as (evs2 & logs2 & X2 & L2 & G2 & U2 & T2).
  destruct (attempt_body E prompt 1 (backoff 0 e1 2 s1)) as [[t|e2] s2]; simpl in X2.
  { pose proof (extends_trans _ _ _ _ _ _ _ X1' X2) as X.
    eexists; eexists. split; [exact X|].
    rewrite !count_lookup_app, !count_generate_app, !count_upload_app, !time_slept_app.
    rewrite U1, U2, T1, T2.
    change (count_lookup [EvSleep 2]) with 0%nat.
    change (count_generate [EvSleep 2]) with 0%nat.
    change (count_upload [EvSleep 2]) with 0%nat.
    change (time_slept [EvSleep 2]) with 2.
    repeat split; lia. }
  pose proof (extends_trans _ _ _ _ _ _ _ X1' X2) as X12.
  pose proof (extends_trans _ _ _ _ _ _ _ X12 (extends_backoff 1 e2 4 s2)) as X2'.
  destruct (attempt_body_calls E prompt 2 (backoff 1 e2 4 s2))
    as (evs3 & logs3 & X3 & L3 & G3 & U3 & T3).
  assert (X : exists logs4,
             extends s
               (snd (let (o, s3) := attempt_body E prompt 2 (backoff 1 e2 4 s2) in
                     match o with
                     | Return t => (Return (Some t), s3)
                     | Raise e3 => (Raise e3, final_failure 2 e3 s3)
                     end))
               ((((evs1 ++ [EvSleep 2]) ++ evs2) ++ [EvSleep 4]) ++ evs3) logs4).
  { destruct (attempt_body E prompt 2 (backoff 1 e2 4 s2)) as [[t|e3] s3]; simpl in *.
    - eexists. exact (extends_trans _ _ _ _ _ _ _ X2' X3).
    - eexists.
      pose proof (extends_trans _ _ _ _ _ _ _
                    (extends_trans _ _ _ _ _ _ _ X2' X3)
                    (extends_final_failure 2 e3 s3)) as X.
      rewrite app_nil_r in X. exact X. }
  destruct X as (logs4 & X).
  eexists; eexists. split; [exact X|].
  rewrite !count_lookup_app, !count_generate_app, !count_upload_app, !time_slept_app.
  rewrite U1, U2, U3, T1, T2, T3.
  change (count_lookup [EvSleep 2]) with 0%nat.
  change (count_generate [EvSleep 2]) with 0%nat.
  change (count_upload [EvSleep 2]) with 0%nat.
  change (time_slept [EvSleep 2]) with 2.
  change (count_lookup [EvSleep 4]) with 0%nat.
  change (count_generate [EvSleep 4]) with 0%nat.
  change (count_upload [EvSleep 4]) with 0%nat.
  change (time_slept [EvSleep 4]) with 4.
  repeat split; lia.
Qed.

(** A value returned by the retrying routine is a non-empty text (the
    loop never ends without [return] or [raise]). *)
Lemma generate_returns_text (E : Env) (prompt : string) (s : St) (v : option string) :
  fst (_generate_response_with_files E prompt s) = Return v ->
  exists t, v = Some t /\ truthy t = true.
Proof.
  rewrite generate_unrolled.
  destruct (attempt_body_run E prompt 0 s) as (evs1 & logs1 & _ & _ & _ & _ & _ & _ & T1).
  destruct (attempt_body E prompt 0 s) as [[t|e1] s1]; simpl in *.
  { intros H. injection H as H. subst v. exists t.
    split; [reflexivity | apply (T1 t eq_refl)]. }
  destruct (attempt_body_run E prompt 1 (backoff 0 e1 2 s1))
    as (evs2 & logs2 & _ & _ & _ & _ & _ & _ & T2).
  destruct (attempt_body E prompt 1 (backoff 0 e1 2 s1)) as [[t|e2] s2]; simpl in *.
  { intros H. injection H as H. subst v. exists t.
    split; [reflexivity | apply (T2 t eq_refl)]. }
  destruct (attempt_body_run E prompt 2 (backoff 1 e2 4 s2))
    as (evs3 & logs3 & _ & _ & _ & _ & _ & _ & T3).
  destruct (attempt_body E prompt 2 (backoff 1 e2 4 s2)) as [[t|e3] s3]; simpl in *.
  { intros H. injection H as H. subst v. exists t.
    split; [reflexivity | apply (T3 t eq_refl)]. }
  discriminate.
Qed.

(** X8. One call of [analyze_differences], whatever the query, the
    state and the outside world, leaves the analyzer's fields as they
    were, uploads nothing, and makes at most 6 file look-ups and 3
    generation calls; it sleeps 6 time units at most. *)
Theorem analyze_differences_bounded (E : Env) (query : string) (s : St) :
  exists evs logs,
    extends s (snd (analyze_differences E query s)) evs logs /\
    count_upload evs = 0%nat /\
    (count_lookup evs <= 6)%nat /\
    (count_generate evs <= 3)%nat /\
    0 <= time_slept evs <= 6.
Proof.
  unfold analyze_differences. unfold_py.
  destruct (is_initialized (self s)); simpl;
    [| eexists; eexists; split; [close_extends | cbv; repeat split; try lia; discriminate] ].
  destruct (negb (is_set (old_kuhp_file (self s))) ||
            negb (is_set (new_kuhp_file (self s))))%bool; simpl;
    [ eexists; eexists; split; [close_extends | cbv; repeat split; try lia; discriminate] |].
  destruct (_check_query_relevance E query); simpl;
    [| eexists; eexists; split; [close_extends | cbv; repeat split; try lia; discriminate] ].
  match goal with
  | |- context [_generate_response_with_files E ?p ?st] =>
      destruct (generate_calls E p st) as (evs & logs & X & L & G & U & T);
      assert (X0 : extends s st [] [LogStartingAnalysis query])
        by (apply extends_print);
      pose proof (extends_trans _ _ _ _ _ _ _ X0 X) as X1;
      destruct (_generate_response_with_files E p st) as [[v|e] s2]; simpl in *
  end.
  - pose proof (extends_trans _ _ _ _ _ _ _ X1 (extends_print s2 LogAnalysisCompleted)) as X2.
    rewrite app_nil_r in X2.
    eexists; eexists. split; [exact X2|]. repeat split; lia.
  - pose proof (extends_trans _ _ _ _ _ _ _ X1 (extends_print s2 (LogAnalysisFailed e))) as X2.
    rewrite app_nil_r in X2.
    eexists; eexists. split; [exact X2|]. repeat split; lia.
Qed.

(** X9. Whatever [analyze_differences] returns is well formed: the
    analyzer was initialized with both handles set, [is_relevant] is
    the verdict of the relevance filter, [files_used] is 2 for a
    relevant query and 0 otherwise, and [response] is a non-empty text
    (never [None]): the guidance text for an off-domain query, a
    generated text otherwise. *)
Theorem analyze_differences_result (E : Env) (query : string) (s : St)
    (result : AnalysisResult) :
  fst (analyze_differences E query s) = Return result ->
  is_initialized (self s) = true /\
  is_set (old_kuhp_file (self s)) = true /\
  is_set (new_kuhp_file (self s)) = true /\
  is_relevant result = _check_query_relevance E query /\
  files_used result = (if is_relevant result then 2 else 0) /\
  exists t, response result = Some t /\ truthy t = true /\
            (is_relevant result = false -> t = _get_irrelevant_response query).
Proof.
  unfold analyze_differences. unfold_py.
  destruct (is_initialized (self s)); simpl; [|discriminate].
  destruct (is_set (old_kuhp_file (self s))); simpl; [|discriminate].
  destruct (is_set (new_kuhp_file (self s))); simpl; [|discriminate].
  destruct (_check_query_relevance E query); simpl.
  - match goal with
    | |- context [_generate_response_with_files E ?p ?st] =>
        pose proof (generate_returns_text E p st) as T;
        destruct (_generate_response_with_files E p st) as [[v|e] s2]; simpl in *
    end; [|discriminate].
    intros H. injection H as <-. simpl.
    destruct (T v eq_refl) as (t & -> & Ht).
    repeat split. exists t. repeat split; [exact Ht | discriminate].
  - intros H. injection H as <-. simpl.
    repeat split. eexists. repeat split.
Qed.

(** X9 at a concrete run. *)
Lemma analyze_differences_result_witness :
  is_initialized (self loaded) = true /\
  is_set (old_kuhp_file (self loaded)) = true /\
  is_set (new_kuhp_file (self loaded)) = true /\
  is_relevant {| response := Some "jawaban"; is_relevant := true; files_used := 2 |} =
    _check_query_relevance (steady_env "ACTIVE" "jawaban") "Apa sanksi pencurian?" /\
  files_used {| response := Some "jawaban"; is_relevant := true; files_used := 2 |} =
    (if is_relevant {| response := Some "jawaban"; is_relevant := true; files_used := 2 |}
     then 2 else 0) /\
  exists t,
    response {| response := Some "jawaban"; is_relevant := true; files_used := 2 |} = Some t /\
    truthy t = true /\
    (is_relevant {| response := Some "jawaban"; is_relevant := true; files_used := 2 |} = false ->
     t = _get_irrelevant_response "Apa sanksi pencurian?").
Proof.
  apply (analyze_differences_result (steady_env "ACTIVE" "jawaban")
           "Apa sanksi pencurian?" loaded).
  vm_compute. reflexivity.
Defined.

(** When every attempt raises, whatever the state it starts from, the
    routine raises after three attempts and the two back-off sleeps. *)
Lemma generate_all_attempts_fail (E : Env) (prompt : string)
    (Q : exn -> Prop) (c : nat) (a : KUHPAnalyzer) (s : St) :
  self s = a ->
  (forall attempt s1, self s1 = a ->
     exists e s2 evs logs,
       attempt_body E prompt attempt s1 = (Raise e, s2) /\ Q e /\
       extends s1 s2 evs logs /\ count_generate evs = c /\ sleeps_of evs = []) ->
  exists e evs logs,
    fst (_generate_response_with_files E prompt s) = Raise e /\ Q e /\
    extends s (snd (_generate_response_with_files E prompt s)) evs logs /\
    count_generate evs = (3 * c)%nat /\ sleeps_of evs = [2; 4].
Proof.
  intros Hs Hall. rewrite generate_unrolled.
  destruct (Hall 0 s Hs) as (e1 & s1 & evs1 & logs1 & A1 & _ & X1 & C1 & S1).
  rewrite A1.
  pose proof (extends_trans _ _ _ _ _ _ _ X1 (extends_backoff 0 e1 2 s1)) as X1'.
  assert (Hs1 : self (backoff 0 e1 2 s1) = a) by (destruct X1' as (-> & _); exact Hs).
  destruct (Hall 1 _ Hs1) as (e2 & s2 & evs2 & logs2 & A2 & _ & X2 & C2 & S2).
  rewrite A2.
  pose proof (extends_trans _ _ _ _ _ _ _
                (extends_trans _ _ _ _ _ _ _ X1' X2)
                (extends_backoff 1 e2 4 s2)) as X2'.
  assert (Hs2 : self (backoff 1 e2 4 s2) = a) by (destruct X2' as (-> & _); exact Hs).
  destruct (Hall 2 _ Hs2) as (e3 & s3 & evs3 & logs3 & A3 & Q3 & X3 & C3 & S3).
  rewrite A3. simpl.
  pose proof (extends_trans _ _ _ _ _ _ _
                (extends_trans _ _ _ _ _ _ _ X2' X3)
                (extends_final_failure 2 e3 s3)) as X.
  exists e3. eexists; eexists. split; [reflexivity|]. split; [exact Q3|].
  split; [exact X|].
  rewrite !count_generate_app, !sleeps_of_app, C1, C2, C3, S1, S2, S3.
  change (count_generate [EvSleep 2]) with 0%nat.
  change (count_generate [EvSleep 4]) with 0%nat.
  change (count_generate []) with 0%nat.
  split; [lia | reflexivity].
Qed.

Lemma verification_failures_app (l1 l2 : list LogLine) :
  verification_failures (l1 ++ l2) =
  (verification_failures l1 + verification_failures l2)%nat.
Proof. unfold verification_failures. rewrite filter_app, length_app. reflexivity. Qed.

(** When every attempt raises after the same external calls and one
    printed verification failure, the routine makes these calls three
    times, with the two back-off sleeps in between, and raises. *)
Lemma generate_all_verifications_fail (E : Env) (prompt : string)
    (Q : exn -> Prop) (calls : list Event) (a : KUHPAnalyzer) (s : St) :
  self s = a ->
  (forall attempt s1, self s1 = a ->
     exists e s2 logs,
       attempt_body E prompt attempt s1 = (Raise e, s2) /\ Q e /\
       extends s1 s2 calls logs /\ verification_failures logs = 1%nat) ->
  exists e logs,
    fst (_generate_response_with_files E prompt s) = Raise e /\ Q e /\
    extends s (snd (_generate_response_with_files E prompt s))
      (calls ++ [EvSleep 2] ++ calls ++ [EvSleep 4] ++ calls) logs /\
    verification_failures logs = 3%nat.
Proof.
  intros Hs Hall. rewrite generate_unrolled.
  destruct (Hall 0 s Hs) as (e1 & s1 & logs1 & A1 & _ & X1 & V1).
  rewrite A1.
  pose proof (extends_trans _ _ _ _ _ _ _ X1 (extends_backoff 0 e1 2 s1)) as X1'.
  assert (Hs1 : self (backoff 0 e1 2 s1) = a) by (destruct X1' as (-> & _); exact Hs).
  destruct (Hall 1 _ Hs1) as (e2 & s2 & logs2 & A2 & _ & X2 & V2).
  rewrite A2.
  pose proof (extends_trans _ _ _ _ _ _ _
                (extends_trans _ _ _ _ _ _ _ X1' X2)
                (extends_backoff 1 e2 4 s2)) as X2'.
  assert (Hs2 : self (backoff 1 e2 4 s2) = a) by (destruct X2' as (-> & _); exact Hs).
  destruct (Hall 2 _ Hs2) as (e3 & s3 & logs3 & A3 & Q3 & X3 & V3).
  rewrite A3. simpl.
  pose proof (extends_trans _ _ _ _ _ _ _
                (extends_trans _ _ _ _ _ _ _ X2' X3)
                (extends_final_failure 2 e3 s3)) as X.
  rewrite app_nil_r, <- !app_assoc in X.
  exists e3. eexists. split; [reflexivity|]. split; [exact Q3|].
  split; [exact X|].
  rewrite !verification_failures_app, V1, V2, V3. reflexivity.
Qed.

(** X10. If the file store answers every look-up but never reports the
    old document ACTIVE, the retrying routine never calls the
    generation service.  It verifies three times: each time it looks up
    the old and the new document and prints one verification failure;
    it sleeps 2 after the first and 4 after the second, makes no other
    external call, and raises the "KUHP Lama file is not active"
    exception. *)
Theorem generate_never_calls_when_not_active (E : Env) (prompt : string) (s : St)
    (o n : File) :
  old_kuhp_file (self s) = Some o ->
  new_kuhp_file (self s) = Some n ->
  never_active E (name o) ->
  lookups_answered E ->
  exists state evs logs,
    state <> "ACTIVE" /\
    fst (_generate_response_with_files E prompt s) =
      Raise (Exception ("KUHP Lama file is not active: " ++ state)%string) /\
    extends s (snd (_generate_response_with_files E prompt s)) evs logs /\
    count_generate evs = 0%nat /\ sleeps_of evs = [2; 4] /\
    evs = [EvGetFile (name o); EvGetFile (name n); EvSleep 2;
           EvGetFile (name o); EvGetFile (name n); EvSleep 4;
           EvGetFile (name o); EvGetFile (name n)] /\
    count_lookup evs = 6%nat /\
    verification_failures logs = 3%nat.
Proof.
  intros Ho Hn N A.
  destruct (generate_all_verifications_fail E prompt
              (fun e => exists state, state <> "ACTIVE" /\
                 e = Exception ("KUHP Lama file is not active: " ++ state)%string)
              [EvGetFile (name o); EvGetFile (name n)] (self s) s eq_refl)
    as (e & logs & R & (state & Hstate & ->) & X & V).
  - intros attempt s1 Hs1.
    unfold attempt_body, _verify_files_ready. unfold_py.
    rewrite Hs1, Ho. simpl.
    destruct (N (trace s1)) as (io & Go & Nio). rewrite Go. simpl.
    rewrite Hn. simpl.
    destruct (A (trace s1 ++ [EvGetFile (name o)]) (name n)) as (inn & Gn).
    rewrite Gn. simpl.
    apply String.eqb_neq in Nio. rewrite Nio. simpl.
    do 3 eexists. split; [reflexivity|]. split.
    { exists (state_name io). split; [apply String.eqb_neq; exact Nio | reflexivity]. }
    split; [unfold extends; simpl; rewrite Hs1, <- !app_assoc; repeat split|].
    reflexivity.
  - exists state. eexists. exists logs.
    split; [exact Hstate|]. split; [exact R|]. split; [exact X|].
    repeat split. exact V.
Qed.

(** X10 at a concrete world: files stuck in PROCESSING. *)
Lemma generate_never_calls_when_not_active_witness :
  exists state evs logs,
    state <> "ACTIVE" /\
    fst (_generate_response_with_files (steady_env "PROCESSING" "jawaban") "p" loaded) =
      Raise (Exception ("KUHP Lama file is not active: " ++ state)%string) /\
    extends loaded
      (snd (_generate_response_with_files (steady_env "PROCESSING" "jawaban") "p" loaded))
      evs logs /\
    count_generate evs = 0%nat /\ sleeps_of evs = [2; 4] /\
    evs = [EvGetFile (name (uploaded "KUHP Lama"));
           EvGetFile (name (uploaded "KUHP Baru")); EvSleep 2;
           EvGetFile (name (uploaded "KUHP Lama"));
           EvGetFile (name (uploaded "KUHP Baru")); EvSleep 4;
           EvGetFile (name (uploaded "KUHP Lama"));
           EvGetFile (name (uploaded "KUHP Baru"))] /\
    count_lookup evs = 6%nat /\
    verification_failures logs = 3%nat.
Proof.
  apply (generate_never_calls_when_not_active (steady_env "PROCESSING" "jawaban")
           "p" loaded (uploaded "KUHP Lama") (uploaded "KUHP Baru")).
  - reflexivity.
  - reflexivity.
  - intros h. eexists. split; [reflexivity | discriminate].
  - apply steady_env_answers.
Defined.

(** X11. An empty generated text counts as a failure and is retried:
    with files always ACTIVE and a generation service that always
    answers with an empty text, the routine makes exactly three
    generation calls, sleeps 2 then 4, and raises the "Empty response"
    exception. *)
Theorem generate_empty_response_exhausts (E : Env) (prompt : string) (s : St)
    (o n : File) :
  old_kuhp_file (self s) = Some o ->
  new_kuhp_file (self s) = Some n ->
  always_active E ->
  always_empty E ->
  exists evs logs,
    fst (_generate_response_with_files E prompt s) =
      Raise (Exception "Empty response received from Gemini") /\
    extends s (snd (_generate_response_with_files E prompt s)) evs logs /\
    count_generate evs = 3%nat /\ sleeps_of evs = [2; 4].
Proof.
  intros Ho Hn A Em.
  destruct (generate_all_attempts_fail E prompt
              (fun e => e = Exception "Empty response received from Gemini")
              1%nat (self s) s eq_refl)
    as (e & evs & logs & R & -> & X & C & S).
  - intros attempt s1 Hs1.
    unfold attempt_body, _verify_files_ready. unfold_py.
    rewrite Hs1, Ho. simpl.
    destruct (A (trace s1) (name o)) as (io & Go & Aio). rewrite Go. simpl.
    rewrite Hn. simpl.
    destruct (A (trace s1 ++ [EvGetFile (name o)]) (name n)) as (inn & Gn & Ainn).
    rewrite Gn. simpl.
    apply String.eqb_eq in Aio, Ainn. rewrite Aio, Ainn. simpl.
    rewrite Hs1, Ho, Hn.
    match goal with
    | |- context [generate_content E ?h ?c] =>
        destruct (Em h c) as (r & Gr & Tr); rewrite Gr; simpl; rewrite Tr; simpl
    end.
    do 4 eexists. split; [reflexivity|]. split; [reflexivity|].
    split; [unfold extends; simpl; rewrite Hs1, <- !app_assoc; repeat split|].
    split; reflexivity.
  - exists evs, logs. split; [exact R|]. split; [exact X|].
    split; [exact C | exact S].
Qed.

(** X11 at a concrete world. *)
Lemma generate_empty_response_exhausts_witness :
  exists evs logs,
    fst (_generate_response_with_files (steady_env "ACTIVE" "") "p" loaded) =
      Raise (Exception "Empty response received from Gemini") /\
    extends loaded
      (snd (_generate_response_with_files (steady_env "ACTIVE" "") "p" loaded))
      evs logs /\
    count_generate evs = 3%nat /\ sleeps_of evs = [2; 4].
Proof.
  apply (generate_empty_response_exhausts (steady_env "ACTIVE" "") "p" loaded
           (uploaded "KUHP Lama") (uploaded "KUHP Baru")).
  - reflexivity.
  - reflexivity.
  - intros h nm. eexists. split; reflexivity.
  - intros h c. eexists. split; reflexivity.
Defined.

(** X12. The path without failure: on an initialized analyzer, for a
    relevant query, when both look-ups report ACTIVE and the first
    generation call answers with a non-empty text, [analyze_differences]
    returns that text with [is_relevant = True] and [files_used = 2]
    after exactly these three external calls, without sleeping, and
    prints its three lines. *)
Theorem analyze_differences_first_attempt (E : Env) (query : string) (s : St)
    (o n : File) (io inn : FileInfo) (r : GenerateContentResponse) :
  is_initialized (self s) = true ->
  old_kuhp_file (self s) = Some o ->
  new_kuhp_file (self s) = Some n ->
  _check_query_relevance E query = true ->
  get_file E (trace s) (name o) = inr io -> state_name io = "ACTIVE" ->
  get_file E (trace s ++ [EvGetFile (name o)]) (name n) = inr inn ->
  state_name inn = "ACTIVE" ->
  generate_content E (trace s ++ [EvGetFile (name o); EvGetFile (name n)])
    [PFile (Some o); PFile (Some n); PText (_build_analysis_prompt query)] = inr r ->
  truthy (text r) = true ->
  analyze_differences E query s =
    (Return {| response := Some (text r); is_relevant := true; files_used := 2 |},
     {| self := self s;
        trace := trace s ++
                 [EvGetFile (name o); EvGetFile (name n);
                  EvGenerate [PFile (Some o); PFile (Some n);
                              PText (_build_analysis_prompt query)]];
        stdout := stdout s ++
                  [LogStartingAnalysis query; LogGenerating 1 3;
                   LogAnalysisCompleted] |}).
Proof.
  intros Hinit Ho Hn Hrel Go Ao Gn An Gr Tr.
  apply String.eqb_eq in Ao, An.
  unfold analyze_differences, _generate_response_with_files.
  change (range max_retries) with [0; 1; 2].
  unfold generate_loop, attempt_body, _verify_files_ready. unfold_py.
  rewrite Hinit, Ho, Hn, Hrel. simpl.
  repeat (first [ rewrite Ho | rewrite Hn | rewrite Go | rewrite Gn
                | rewrite Ao | rewrite An | rewrite Gr | rewrite Tr
                | rewrite <- app_assoc ]; simpl).
  reflexivity.
Qed.

(** X12 at a concrete run. *)
Lemma analyze_differences_first_attempt_witness :
  analyze_differences (steady_env "ACTIVE" "jawaban") "Apa sanksi pencurian?" loaded =
    (Return {| response := Some (text {| text := "jawaban" |});
               is_relevant := true; files_used := 2 |},
     {| self := self loaded;
        trace := trace loaded ++
                 [EvGetFile (name (uploaded "KUHP Lama"));
                  EvGetFile (name (uploaded "KUHP Baru"));
                  EvGenerate [PFile (Some (uploaded "KUHP Lama"));
                              PFile (Some (uploaded "KUHP Baru"));
                              PText (_build_analysis_prompt "Apa sanksi pencurian?")]];
        stdout := stdout loaded ++
                  [LogStartingAnalysis "Apa sanksi pencurian?"; LogGenerating 1 3;
                   LogAnalysisCompleted] |}).
Proof.
  apply (analyze_differences_first_attempt (steady_env "ACTIVE" "jawaban")
           "Apa sanksi pencurian?" loaded
           (uploaded "KUHP Lama") (uploaded "KUHP Baru")
           {| state_name := "ACTIVE" |} {| state_name := "ACTIVE" |}
           {| text := "jawaban" |}); reflexivity.
Defined.

(** What a successful load leaves in the analyzer. *)
Lemma load_documents_true_fields (E : Env) (s : St) :
  fst (load_documents E s) = Return true ->
  is_initialized (self (snd (load_documents E s))) = true /\
  is_set (old_kuhp_file (self (snd (load_documents E s)))) = true /\
  is_set (new_kuhp_file (self (snd (load_documents E s)))) = true.
Proof.
  unfold_load.
  destruct (path_exists E (old_kuhp_path (config (self s)))); simpl;
    [| discriminate].
  destruct (upload_file E (trace s) (old_kuhp_path (config (self s))) "KUHP Lama")
    as [e|f_old]; simpl; [discriminate|].
  destruct (path_exists E (new_kuhp_path (config (self s)))); simpl;
    [| discriminate].
  match goal with
  | |- context [upload_file E ?h ?p ?d] =>
      destruct (upload_file E h p d) as [e|f_new]; simpl; [discriminate|]
  end.
  match goal with
  | |- context [_wait_for_files_active E ?st] =>
      pose proof (wait_for_files_active_self E st) as W;
      destruct (_wait_for_files_active E st) as [[[]|e] s4]; simpl in *
  end; [| discriminate].
  intros _. rewrite W. simpl. repeat split.
Qed.

(** X13. Loading and querying compose: after any call of
    [load_documents] that returned [True], a query that the relevance
    filter rejects is answered with the guidance text, without any
    external call, in any later world. *)
Theorem load_then_irrelevant_query (E E' : Env) (s : St) (query : string) :
  fst (load_documents E s) = Return true ->
  _check_query_relevance E' query = false ->
  fst (analyze_differences E' query (snd (load_documents E s))) =
    Return {| response := Some (_get_irrelevant_response query);
              is_relevant := false; files_used := 0 |} /\
  trace (snd (analyze_differences E' query (snd (load_documents E s)))) =
    trace (snd (load_documents E s)).
Proof.
  intros L Hrel.
  destruct (load_documents_true_fields E s L) as (Hinit & Hold & Hnew).
  unfold analyze_differences. unfold_py.
  rewrite Hinit, Hold, Hnew, Hrel. simpl. split; reflexivity.
Qed.

(** X13 at a concrete run: loaded while the files were still in
    PROCESSING, queried later. *)
Lemma load_then_irrelevant_query_witness :
  fst (analyze_differences failing_env "Bagaimana cuaca hari ini?"
         (snd (load_documents (steady_env "PROCESSING" "jawaban") fresh))) =
    Return {| response := Some (_get_irrelevant_response "Bagaimana cuaca hari ini?");
              is_relevant := false; files_used := 0 |} /\
  trace (snd (analyze_differences failing_env "Bagaimana cuaca hari ini?"
                (snd (load_documents (steady_env "PROCESSING" "jawaban") fresh)))) =
    trace (snd (load_documents (steady_env "PROCESSING" "jawaban") fresh)).
Proof.
  apply (load_then_irrelevant_query (steady_env "PROCESSING" "jawaban") failing_env
           fresh "Bagaimana cuaca hari ini?").
  - vm_compute. reflexivity.
  - reflexivity.
Defined.

(* ================================================================= *)
(** ** Further properties: status and construction *)

Lemma load_documents_config (E : Env) (s : St) :
  config (self (snd (load_documents E s))) = config (self s).
Proof.
  unfold_load.
  destruct (path_exists E (old_kuhp_path (config (self s)))); simpl; [|reflexivity].
  destruct (upload_file E (trace s) (old_kuhp_path (config (self s))) "KUHP Lama")
    as [e|f_old]; simpl; [reflexivity|].
  destruct (path_exists E (new_kuhp_path (config (self s)))); simpl; [|reflexivity].
  match goal with
  | |- context [upload_file E ?h ?p ?d] =>
      destruct (upload_file E h p d) as [e|f_new]; simpl; [reflexivity|]
  end.
  match goal with
  | |- context [_wait_for_files_active E ?st] =>
      pose proof (wait_for_files_active_self E st) as W;
      destruct (_wait_for_files_active E st) as [[[]|e] s4]; simpl in *
  end; rewrite W; reflexivity.
Qed.

Lemma reachable_config (E : Env) (s : St) :
  reachable E s -> config (self s) = default_config.
Proof.
  induction 1 as [tr out | s R IH | s query R IH].
  - reflexivity.
  - rewrite load_documents_config. exact IH.
  - destruct (analyze_differences_extends E query s) as (evs & logs & Hself & _).
    rewrite Hself. exact IH.
Qed.

(** X14. What [get_status] reports over the life of an analyzer: the
    model name is always the configured default; [files_uploaded] is
    true exactly when both display names are reported; and an analyzer
    reported as initialized is always reported with its files
    uploaded. *)
Theorem get_status_consistent (E : Env) (s : St) :
  reachable E s ->
  Status.model_name (get_status (self s)) = "gemini-2.0-flash" /\
  (Status.files_uploaded (get_status (self s)) = true <->
   Status.old_kuhp_file (get_status (self s)) <> None /\
   Status.new_kuhp_file (get_status (self s)) <> None) /\
  (Status.is_initialized (get_status (self s)) = true ->
   Status.files_uploaded (get_status (self s)) = true).
Proof.
  intros R. unfold get_status. simpl.
  split; [rewrite (reachable_config E s R); reflexivity|].
  split.
  - destruct (old_kuhp_file (self s)), (new_kuhp_file (self s)); simpl;
      (split; intros H0;
       [ try discriminate; split; discriminate
       | try reflexivity; destruct H0 as [A B]; congruence ]).
  - intros Hinit. destruct (initialized_has_handles E s R Hinit) as [-> ->].
    reflexivity.
Qed.

(** X14 at a concrete state. *)
Lemma get_status_consistent_witness :
  Status.model_name (get_status (self loaded)) = "gemini-2.0-flash" /\
  (Status.files_uploaded (get_status (self loaded)) = true <->
   Status.old_kuhp_file (get_status (self loaded)) <> None /\
   Status.new_kuhp_file (get_status (self loaded)) <> None) /\
  (Status.is_initialized (get_status (self loaded)) = true ->
   Status.files_uploaded (get_status (self loaded)) = true).
Proof.
  apply (get_status_consistent (steady_env "ACTIVE" "jawaban") loaded).
  unfold loaded. apply reach_load. apply reach_new.
Defined.

(** X15. The constructor yields an object exactly when the SDK is
    available, the API key is present and not empty, and neither
    [genai.configure] nor the model constructor raises; the object is
    then the uninitialized analyzer with no handles, made after exactly
    these two SDK calls. *)
Theorem init_succeeds_iff (H : Host) :
  ((exists a, fst (fst (__init__ H)) = Return a) <->
   GENAI_AVAILABLE H = true /\
   exists api_key,
     getenv_GEMINI_API_KEY H = Some api_key /\ api_key <> "" /\
     genai_configure H api_key = None /\
     genai_GenerativeModel H "gemini-2.0-flash" = None) /\
  (forall a, fst (fst (__init__ H)) = Return a ->
     a = new_analyzer /\
     exists api_key,
       getenv_GEMINI_API_KEY H = Some api_key /\
       snd (fst (__init__ H)) =
         [CallConfigure api_key; CallGenerativeModel "gemini-2.0-flash"]).
Proof.
  unfold __init__, _initialize_gemini, initialize_gemini_body. simpl.
  destruct (GENAI_AVAILABLE H); simpl.
  2:{ split; [split|]; [intros [a Ha] | intros [Hf _] | intros a Ha]; discriminate. }
  destruct (getenv_GEMINI_API_KEY H) as [[|c k]|]; simpl.
  - split; [split|].
    + intros [a Ha]; discriminate.
    + intros (_ & k & Hk & Hne & _). injection Hk as <-. congruence.
    + intros a Ha; discriminate.
  - destruct (genai_configure H (String c k)) as [e|] eqn:Cf; simpl.
    { split; [split|].
      + intros [a Ha]; discriminate.
      + intros (_ & k' & Hk & _ & Hc & _). injection Hk as <-. congruence.
      + intros a Ha; discriminate. }
    destruct (genai_GenerativeModel H "gemini-2.0-flash") as [e|] eqn:Gm; simpl.
    { split; [split|].
      + intros [a Ha]; discriminate.
      + intros (_ & k' & _ & _ & _ & Hm). discriminate.
      + intros a Ha; discriminate. }
    split; [split|].
    + intros _. split; [reflexivity|]. exists (String c k).
      repeat split; try assumption. discriminate.
    + intros _. eexists. reflexivity.
    + intros a Ha. injection Ha as <-. split; [reflexivity|].
      exists (String c k). split; reflexivity.
  - split; [split|].
    + intros [a Ha]; discriminate.
    + intros (_ & k & Hk & _). discriminate.
    + intros a Ha; discriminate.
Qed.

(** X16. Without the SDK, or with the API key missing or empty, the
    constructor raises before any SDK call is made, after printing the
    failure once: the "SDK not available" exception in the first case
    (the key is not even looked at), the "GEMINI_API_KEY not found"
    exception otherwise. *)
Theorem init_fails_before_any_call (H : Host) :
  GENAI_AVAILABLE H = false \/ key_present (getenv_GEMINI_API_KEY H) = false ->
  exists e,
    __init__ H = (Raise e, [], [LogGeminiInitFailed e]) /\
    e = (if GENAI_AVAILABLE H
         then Exception "GEMINI_API_KEY not found in environment variables"
         else Exception "Google AI SDK not available").
Proof.
  unfold __init__, _initialize_gemini, initialize_gemini_body. simpl.
  destruct (GENAI_AVAILABLE H); simpl.
  - intros [Hf | Hk]; [discriminate|].
    destruct (getenv_GEMINI_API_KEY H) as [[|c k]|]; simpl in *;
      try discriminate; eexists; split; reflexivity.
  - intros _. eexists; split; reflexivity.
Qed.

(** X16 at a concrete host: the key is set to the empty string. *)
Lemma init_fails_before_any_call_witness :
  exists e,
    __init__ empty_key_host = (Raise e, [], [LogGeminiInitFailed e]) /\
    e = (if GENAI_AVAILABLE empty_key_host
         then Exception "GEMINI_API_KEY not found in environment variables"
         else Exception "Google AI SDK not available").
Proof.
  apply (init_fails_before_any_call empty_key_host). right. reflexivity.
Defined.

(* ================================================================= *)
(** ** Further properties: relevance filter and prompt *)

Lemma append_assoc (a b c : string) :
  ((a ++ b) ++ c)%string = (a ++ b ++ c)%string.
Proof. induction a as [|x a IH]; simpl; [reflexivity | rewrite IH; reflexivity]. Qed.

Lemma length_append (a b : string) :
  String.length (a ++ b) = (String.length a + String.length b)%nat.
Proof. induction a as [|x a IH]; simpl; [reflexivity | rewrite IH; reflexivity]. Qed.

Lemma append_inv_head (p x y : string) :
  (p ++ x)%string = (p ++ y)%string -> x = y.
Proof.
  induction p as [|c p IH]; simpl; intros H; [exact H|].
  injection H as H. apply IH, H.
Qed.

Lemma append_inv_tail (x y t : string) :
  (x ++ t)%string = (y ++ t)%string -> x = y.
Proof.
  revert y. induction x as [|c x IH]; intros [|d y] H; simpl in H.
  - reflexivity.
  - apply (f_equal String.length) in H. simpl in H.
    rewrite length_append in H. lia.
  - apply (f_equal String.length) in H. simpl in H.
    rewrite length_append in H. lia.
  - injection H as -> H. f_equal. apply IH, H.
Qed.

Lemma is_substring_trans (a b c : string) :
  is_substring a b -> is_substring b c -> is_substring a c.
Proof.
  intros (p1 & q1 & ->) (p2 & q2 & ->).
  exists (p2 ++ p1)%string, (q1 ++ q2)%string.
  rewrite !append_assoc. reflexivity.
Qed.

Lemma is_substring_length (a b : string) :
  is_substring a b -> (String.length a <= String.length b)%nat.
Proof. intros (p & q & ->). rewrite !length_append. lia. Qed.

Lemma ascii_lower_app (a b : string) :
  ascii_lower (a ++ b) = (ascii_lower a ++ ascii_lower b)%string.
Proof. induction a as [|c a IH]; simpl; [reflexivity | rewrite IH; reflexivity]. Qed.

(** X17. The prompt is the query put verbatim between two fixed texts,
    the same two for every query, and nothing of the query is lost: two
    queries with the same prompt are the same query. *)
Theorem build_analysis_prompt_injective :
  (exists before after,
     forall query,
       _build_analysis_prompt query = (before ++ query ++ after)%string) /\
  (forall q1 q2,
     _build_analysis_prompt q1 = _build_analysis_prompt q2 -> q1 = q2).
Proof.
  split.
  - eexists; eexists. intros query. unfold _build_analysis_prompt. reflexivity.
  - intros q1 q2 H. unfold _build_analysis_prompt in H.
    apply append_inv_head in H. apply append_inv_tail in H. exact H.
Qed.

(** X18. The filter is a substring test, not a word test: when
    [str.lower] works character by character, a relevant query stays
    relevant with any text put before and after it. *)
Theorem relevance_survives_context (E : Env) (before query after : string) :
  lower_distributes E ->
  _check_query_relevance E query = true ->
  _check_query_relevance E (before ++ query ++ after)%string = true.
Proof.
  intros D. unfold _check_query_relevance. rewrite !existsb_exists.
  intros (kw & Hin & Hc). exists kw. split; [exact Hin|].
  apply contains_is_substring. apply contains_is_substring in Hc.
  apply (is_substring_trans _ _ _ Hc).
  rewrite !D. eexists; eexists. reflexivity.
Qed.

(** X18 at a concrete query. *)
Lemma relevance_survives_context_witness :
  _check_query_relevance (steady_env "ACTIVE" "jawaban")
    ("resep " ++ "SANKSI" ++ "kue")%string = true.
Proof.
  apply (relevance_survives_context (steady_env "ACTIVE" "jawaban")
           "resep " "SANKSI" "kue").
  - intros a b. apply ascii_lower_app.
  - reflexivity.
Defined.

(** X19. No keyword has fewer than four characters, so a query whose
    lower-cased form is shorter than four characters (the empty query
    included) is never relevant. *)
Theorem short_query_irrelevant (E : Env) (query : string) :
  (String.length (str_lower E query) < 4)%nat ->
  _check_query_relevance E query = false.
Proof.
  intros Hlen. unfold _check_query_relevance.
  destruct (existsb _ kuhp_keywords) eqn:Ex; [|reflexivity].
  apply existsb_exists in Ex. destruct Ex as (kw & Hin & Hc).
  apply contains_is_substring, is_substring_length in Hc.
  assert (Hkw : (4 <= String.length kw)%nat).
  { assert (F : forallb (fun k => Nat.leb 4 (String.length k)) kuhp_keywords = true)
      by reflexivity.
    rewrite forallb_forall in F. apply Nat.leb_le. apply F, Hin. }
  lia.
Qed.

(** X19 at the empty query. *)
Lemma short_query_irrelevant_witness :
  _check_query_relevance (steady_env "ACTIVE" "jawaban") "" = false.
Proof.
  apply (short_query_irrelevant (steady_env "ACTIVE" "jawaban") "").
  simpl. lia.
Defined.

(** X20. Three entries of the keyword list are redundant: "hukum
    pidana" and "tindak pidana" contain "pidana", and "cyber crime"
    contains "cyber".  The filter gives the same verdict on every query
    as the test against the list without them. *)
Theorem redundant_keywords (E : Env) (query : string) :
  _check_query_relevance E query =
  existsb (fun keyword => contains keyword (str_lower E query)) core_keywords.
Proof.
  unfold _check_query_relevance.
  apply eq_iff_eq_true. rewrite !existsb_exists.
  assert (Sub : forall kw, In kw kuhp_keywords ->
            exists core, In core core_keywords /\ contains core kw = true).
  { intros kw Hin.
    assert (F : forallb (fun k => existsb (fun c => contains c k) core_keywords)
                  kuhp_keywords = true) by reflexivity.
    rewrite forallb_forall in F. apply existsb_exists. apply F, Hin. }
  assert (Incl : forall kw, In kw core_keywords -> In kw kuhp_keywords).
  { intros kw Hin.
    assert (F : forallb (fun c => existsb (String.eqb c) kuhp_keywords)
                  core_keywords = true) by reflexivity.
    rewrite forallb_forall in F. specialize (F kw Hin).
    apply existsb_exists in F. destruct F as (k & Hk & Heq).
    apply String.eqb_eq in Heq. subst k. exact Hk. }
  split.
  - intros (kw & Hin & Hc). destruct (Sub kw Hin) as (core & Hcore & Hsub).
    exists core. split; [exact Hcore|].
    apply contains_is_substring.
    apply (is_substring_trans core kw); apply contains_is_substring; assumption.
  - intros (kw & Hin & Hc). exists kw. split; [apply Incl, Hin | exact Hc].
Qed.

(* ================================================================= *)
(** ** Further properties: the analyzer stays ready *)

Lemma load_documents_keeps_initialized (E : Env) (s : St) :
  is_initialized (self s) = true ->
  is_initialized (self (snd (load_documents E s))) = true.
Proof.
  intros Hinit. unfold_load.
  destruct (path_exists E (old_kuhp_path (config (self s)))); simpl; [|exact Hinit].
  destruct (upload_file E (trace s) (old_kuhp_path (config (self s))) "KUHP Lama")
    as [e|f_old]; simpl; [exact Hinit|].
  destruct (path_exists E (new_kuhp_path (config (self s)))); simpl; [|exact Hinit].
  match goal with
  | |- context [upload_file E ?h ?p ?d] =>
      destruct (upload_file E h p d) as [e|f_new]; simpl; [exact Hinit|]
  end.
  match goal with
  | |- context [_wait_for_files_active E ?st] =>
      pose proof (wait_for_files_active_self E st) as W;
      destruct (_wait_for_files_active E st) as [[[]|e] s4]; simpl in *
  end; [reflexivity | rewrite W; exact Hinit].
Qed.

(** X21. There is no way back from ready: once [is_initialized] is set
    and both handles are in place, they stay so through any later calls
    of [load_documents] (failed reloads included) and
    [analyze_differences] (failed queries included). *)
Theorem initialized_is_stable (E : Env) (s s' : St) :
  after_calls E s s' ->
  is_initialized (self s) = true ->
  is_set (old_kuhp_file (self s)) = true ->
  is_set (new_kuhp_file (self s)) = true ->
  is_initialized (self s') = true /\
  is_set (old_kuhp_file (self s')) = true /\
  is_set (new_kuhp_file (self s')) = true.
Proof.
  intros C Hinit Hold Hnew.
  induction C as [| s' C IH | s' query C IH].
  - repeat split; assumption.
  - destruct IH as (I & O & N).
    destruct (load_documents_self E s') as (Ho & Hn & _).
    split; [apply load_documents_keeps_initialized, I|].
    split; [apply Ho, O | apply Hn, N].
  - destruct (analyze_differences_extends E query s') as (evs & logs & Hself & _).
    rewrite Hself. exact IH.
Qed.

(** X21 at a concrete history: a loaded analyzer, then a query while
    the generation service is down, then a reload while uploads are
    rejected. *)
Lemma initialized_is_stable_witness :
  let s' := snd (load_documents upload_failing_env
                   (snd (analyze_differences upload_failing_env
                           "Apa sanksi pencurian?" loaded))) in
  is_initialized (self s') = true /\
  is_set (old_kuhp_file (self s')) = true /\
  is_set (new_kuhp_file (self s')) = true.
Proof.
  intros s'.
  apply (initialized_is_stable upload_failing_env loaded s').
  - unfold s'. apply after_load, after_analyze, after_none.
  - reflexivity.
  - reflexivity.
  - reflexivity.
Defined.
